(** * OpenAI API key tester: a shallow embedding of [openai_api_tester.py]

    The development models the three functions of the tester core
    ([test_single_model], [get_available_models], [test_api_key]) and the
    summary banner of the page, and proves the properties of the
    specification about them.

    The provider (the [openai] client library and the network behind it) is
    a parameter: every theorem is stated for an arbitrary provider over an
    arbitrary world state.  Python exceptions are values carrying their
    class; [try]/[except] dispatches on [isinstance] in textual order. *)

From Stdlib Require Import String Ascii List Bool Arith NArith Lia.
From Stdlib Require Import Sorting.Sorted Sorting.Permutation.
Import ListNotations.

Local Open Scope string_scope.
Local Open Scope list_scope.

(* ===================================================================== *)
(** ** Python exceptions *)
(* ===================================================================== *)

Module Py.

(** The exception classes that the handlers of the program can tell apart:
    the built-in roots and the hierarchy of the [openai] package.  Any other
    class deriving from [Exception] (ValueError, httpx errors, ...) is
    [OtherError] with its name; the two classes that derive from
    [BaseException] only are listed because [except Exception] lets them
    through. *)
Inductive PyClass : Type :=
  | BaseException
  | KeyboardInterrupt
  | SystemExit
  | Exception
  | OtherError (name : string)
  | OpenAIError
  | APIError
  | APIResponseValidationError
  | APIStatusError
  | APIConnectionError
  | APITimeoutError
  | BadRequestError
  | AuthenticationError
  | PermissionDeniedError
  | NotFoundError
  | ConflictError
  | UnprocessableEntityError
  | RateLimitError
  | InternalServerError.

Definition PyClass_eq_dec (c d : PyClass) : {c = d} + {c <> d}.
Proof. decide equality; apply string_dec. Defined.

Definition class_eqb (c d : PyClass) : bool :=
  if PyClass_eq_dec c d then true else false.

(** The direct base class ([None] for the root). *)
Definition base (c : PyClass) : option PyClass :=
  match c with
  | BaseException => None
  | KeyboardInterrupt | SystemExit | Exception => Some BaseException
  | OtherError _ | OpenAIError => Some Exception
  | APIError => Some OpenAIError
  | APIResponseValidationError | APIStatusError | APIConnectionError =>
      Some APIError
  | APITimeoutError => Some APIConnectionError
  | BadRequestError | AuthenticationError | PermissionDeniedError
  | NotFoundError | ConflictError | UnprocessableEntityError
  | RateLimitError | InternalServerError => Some APIStatusError
  end.

(** Method resolution order: the class followed by its ancestors.  The
    hierarchy is six levels deep. *)
Fixpoint mro_aux (depth : nat) (c : PyClass) : list PyClass :=
  c :: match depth with
       | 0 => []
       | S d => match base c with
                | None => []
                | Some b => mro_aux d b
                end
       end.

Definition mro : PyClass -> list PyClass := mro_aux 6.

Definition issubclass (c d : PyClass) : bool :=
  existsb (class_eqb d) (mro c).

(** An exception value: its class and what [str(e)] returns. *)
Record PyExc : Type := mkExc { exc_class : PyClass; str : string }.

Definition isinstance (e : PyExc) (c : PyClass) : bool :=
  issubclass (exc_class e) c.

(** The outcome of evaluating a Python expression. *)
Inductive outcome (A : Type) : Type :=
  | Return (a : A)
  | Raise (e : PyExc).

Arguments Return {A} a.
Arguments Raise {A} e.

(* --------------------------------------------------------------------- *)
(** *** Strings: [str.lower], [in], comparison, [sorted] *)

(** [str.lower] on ASCII identifiers. *)
Definition lower_ascii (c : ascii) : ascii :=
  let n := nat_of_ascii c in
  if ((65 <=? n)%nat && (n <=? 90)%nat)%bool then ascii_of_nat (n + 32) else c.

Fixpoint lower (s : string) : string :=
  match s with
  | EmptyString => EmptyString
  | String c s' => String (lower_ascii c) (lower s')
  end.

(** [sub in s] for two strings: [sub] occurs in [s] as a substring. *)
Fixpoint str_in (sub s : string) : bool :=
  prefix sub s ||
  match s with
  | EmptyString => false
  | String _ s' => str_in sub s'
  end.

(** [any(f(x) for x in l)] *)
Definition any {A : Type} (f : A -> bool) (l : list A) : bool := existsb f l.

(** [sorted(l)] and [l.sort()] on a list of strings: ascending in the
    order of [str], which is lexicographic by code point; on ASCII
    identifiers that is [String.leb], the order of the bytes.  Equal strings
    are indistinguishable, so the stability of the sort is not observable. *)
Fixpoint insert_sorted (x : string) (l : list string) : list string :=
  match l with
  | [] => [x]
  | y :: l' => if (x <=? y)%string then x :: l else y :: insert_sorted x l'
  end.

Definition sorted (l : list string) : list string :=
  fold_right insert_sorted [] l.

(* --------------------------------------------------------------------- *)
(** *** Dictionaries

    A [dict] keeps its keys in insertion order; [d[k] = v] replaces the
    value of an existing key in place and appends a new key at the end. *)

Definition dict (V : Type) : Type := list (string * V).

Fixpoint setitem {V : Type} (d : dict V) (k : string) (v : V) : dict V :=
  match d with
  | [] => [(k, v)]
  | (k', v') :: d' =>
      if String.eqb k' k then (k, v) :: d' else (k', v') :: setitem d' k v
  end.

Definition keys {V : Type} (d : dict V) : list string := map fst d.
Definition values {V : Type} (d : dict V) : list V := map snd d.

Fixpoint getitem {V : Type} (d : dict V) (k : string) : option V :=
  match d with
  | [] => None
  | (k', v) :: d' => if String.eqb k' k then Some v else getitem d' k
  end.

End Py.

Import Py.

(* ===================================================================== *)
(** ** The provider interface *)
(* ===================================================================== *)

(** [OpenAI(api_key=...)]: the client handle keeps the credential. *)
Record Client : Type := mkClient { api_key : string }.

(** An entry of [client.models.list().data]. *)
Record Model : Type := mkModel { id : string }.

(** The keyword arguments of [client.chat.completions.create]. *)
Record ChatRequest : Type := mkChatRequest {
  model : string;
  messages : list (string * string);   (* role, content *)
  max_tokens : nat;
  temperature : nat
}.

(** The completion object; the program never looks inside it. *)
Record ChatCompletion : Type := mkChatCompletion { content : string }.

(** What the program does to the outside, in order. *)
Inductive Event : Type :=
  | EvClientInit (key : string)
  | EvModelsList
  | EvChatCreate (req : ChatRequest)
  | EvSleep (milliseconds : nat).

(** The result type of [test_single_model]: (success, message). *)
Definition ProbeOutcome : Type := (bool * string)%type.

Section Tester.

(** The state of the provider and of the network. *)
Variable W : Type.

Record Provider : Type := mkProvider {
  client_init : string -> W -> outcome Client * W;
  models_list : Client -> W -> outcome (list Model) * W;
  chat_completions_create :
    Client -> ChatRequest -> W -> outcome ChatCompletion * W
}.

Variable P : Provider.

(** [list(set(l))]: the elements of [l] without duplicates, in the
    iteration order of the set, which depends on the hashes. *)
Variable list_of_set : list string -> list string.

Definition set_iteration (f : list string -> list string) : Prop :=
  forall l, NoDup (f l) /\ (forall x, In x (f l) <-> In x l).

(** The machine state: the world, the events so far, and the local
    variable [results] of [test_api_key], which outlives an exception
    raised inside the [try] block. *)
Record State : Type := mkState {
  world : W;
  trace : list Event;
  results : dict ProbeOutcome
}.

Definition M (A : Type) : Type := State -> outcome A * State.

Definition ret {A : Type} (a : A) : M A := fun s => (Return a, s).

Definition bind {A B : Type} (m : M A) (k : A -> M B) : M B :=
  fun s => match m s with
           | (Return a, s') => k a s'
           | (Raise e, s') => (Raise e, s')
           end.

Notation "x <- m ;; k" := (bind m (fun x => k))
  (at level 61, m at next level, right associativity).
Notation "m ;; k" := (bind m (fun _ => k))
  (at level 61, right associativity).

(** [except C as e: h]: a handler is a class and a body. *)
Definition handler (A : Type) : Type := (PyClass * (PyExc -> M A))%type.

(** [try: m except ...]: the first clause whose class the exception is an
    instance of runs; with none the exception propagates. *)
Definition try_except {A : Type} (m : M A) (hs : list (handler A)) : M A :=
  fun s => match m s with
           | (Return a, s') => (Return a, s')
           | (Raise e, s') =>
               match find (fun h => isinstance e (fst h)) hs with
               | Some h => snd h e s'
               | None => (Raise e, s')
               end
           end.

(** [for x in l: body] *)
Fixpoint for_each {A : Type} (l : list A) (body : A -> M unit) : M unit :=
  match l with
  | [] => ret tt
  | x :: l' => body x ;; for_each l' body
  end.

(** A call to the outside is logged, then answered by the provider. *)
Definition call {A : Type} (ev : Event) (f : W -> outcome A * W) : M A :=
  fun s => let (r, w') := f (world s) in
           (r, mkState w' (trace s ++ [ev]) (results s)).

Definition OpenAI (key : string) : M Client :=
  call (EvClientInit key) (client_init P key).

Definition client_models_list (client : Client) : M (list Model) :=
  call EvModelsList (models_list P client).

Definition client_chat_completions_create
    (client : Client) (req : ChatRequest) : M ChatCompletion :=
  call (EvChatCreate req) (chat_completions_create P client req).

(** [time.sleep(0.1)] *)
Definition time_sleep (milliseconds : nat) : M unit :=
  fun s => (Return tt,
            mkState (world s) (trace s ++ [EvSleep milliseconds]) (results s)).

(** [results = d] and [results[k] = v] *)
Definition assign_results (d : dict ProbeOutcome) : M unit :=
  fun s => (Return tt, mkState (world s) (trace s) d).

Definition results_setitem (k : string) (v : ProbeOutcome) : M unit :=
  fun s => (Return tt, mkState (world s) (trace s) (setitem (results s) k v)).

Definition read_results : M (dict ProbeOutcome) :=
  fun s => (Return (results s), s).

(* ===================================================================== *)
(** ** The program *)
(* ===================================================================== *)

Definition test_single_model (client : Client) (model : string)
  : M ProbeOutcome :=
  try_except
    (response <- client_chat_completions_create client
                   (mkChatRequest model [("user", "Hello")] 5 0) ;;
     ret (true, "Successfully connected"))
    [ (AuthenticationError,
        fun _ => ret (false, "Authentication failed - Invalid API key"));
      (PermissionDeniedError,
        fun _ => ret (false, "Permission denied - No access to this model"));
      (NotFoundError,
        fun _ => ret (false, "Model not found"));
      (RateLimitError,
        fun _ => ret (false, "Rate limit exceeded"));
      (APIError,
        fun e => ret (false, ("API error: " ++ str e)%string));
      (Exception,
        fun e => ret (false, ("Unexpected error: " ++ str e)%string)) ].

(** The condition of the comprehension in [get_available_models]. *)
Definition is_gpt_model (model_id : string) : bool :=
  str_in "gpt" (lower model_id) &&
  any (fun variant => str_in variant model_id) ["gpt-4"; "gpt-3.5-turbo"].

Definition get_available_models (client : Client) : M (list string) :=
  try_except
    (models <- client_models_list client ;;
     let gpt_models :=
       map id (filter (fun model => is_gpt_model (id model)) models) in
     ret (sorted gpt_models))
    [ (Exception, fun _ => ret []) ].

Definition default_models : list string :=
  [ "gpt-4o";
    "gpt-4o-mini";
    "gpt-4";
    "gpt-4-turbo";
    "gpt-4-32k";
    "gpt-3.5-turbo";
    "gpt-3.5-turbo-16k" ].

Definition test_api_key (api_key : string) : M (dict ProbeOutcome) :=
  assign_results [] ;;
  try_except
    (client <- OpenAI api_key ;;
     available_models <- get_available_models client ;;
     let models_to_test :=
       sorted (list_of_set (default_models ++ available_models)) in
     for_each models_to_test (fun model =>
       r <- test_single_model client model ;;
       results_setitem model r ;;
       time_sleep 100))
    [ (AuthenticationError,
        fun _ => for_each default_models (fun model =>
                   results_setitem model (false, "Invalid API key")));
      (Exception,
        fun e => for_each default_models (fun model =>
                   results_setitem model
                     (false, ("Client error: " ++ str e)%string))) ] ;;
  read_results.

End Tester.

Arguments mkProvider {W} _ _ _.
Arguments client_init {W} _ _ _.
Arguments models_list {W} _ _ _.
Arguments chat_completions_create {W} _ _ _ _.
Arguments mkState {W} _ _ _.
Arguments world {W} _.
Arguments trace {W} _.
Arguments results {W} _.
Arguments ret {W A} a _.
Arguments bind {W A B} m k _.
Arguments try_except {W A} m hs _.
Arguments for_each {W A} l body _.
Arguments results_setitem {W} k v _.
Arguments time_sleep {W} milliseconds _.
Arguments test_single_model {W} P client model _.
Arguments get_available_models {W} P client _.
Arguments test_api_key {W} P list_of_set api_key _.

(** The state in which the page calls [test_api_key]. *)
Definition initial_state {W : Type} (w : W) : State W := mkState w [] [].

(** The models probed, in the order of the requests. *)
Fixpoint probes (t : list Event) : list string :=
  match t with
  | [] => []
  | EvChatCreate req :: t' => model req :: probes t'
  | _ :: t' => probes t'
  end.

(* ===================================================================== *)
(** ** The summary of the page *)
(* ===================================================================== *)

(** [sum(1 for success, _ in test_results.values() if success)] *)
Definition count_successes (test_results : dict ProbeOutcome) : nat :=
  length (filter (fun v : ProbeOutcome => fst v) (values test_results)).

(** [len(test_results)] *)
Definition count_total (test_results : dict ProbeOutcome) : nat :=
  length test_results.

(** The three banners of the final summary: [st.success] "API Key is
    valid", [st.warning] "API Key is partially valid", [st.error] "API Key
    failed". *)
Inductive Verdict : Type := FullyValid | PartiallyValid | Failed.

Definition final_summary (successes total : nat) : Verdict :=
  if (successes =? total)%nat then FullyValid
  else if (0 <? successes)%nat then PartiallyValid
  else Failed.

(** The summary is rendered only under [if st.session_state.test_results:]. *)
Definition page_summary (test_results : dict ProbeOutcome) : option Verdict :=
  match test_results with
  | [] => None
  | _ => Some (final_summary (count_successes test_results)
                             (count_total test_results))
  end.

(* ===================================================================== *)
(** ** A concrete provider, for running the model *)
(* ===================================================================== *)

Module Demo.

(** The world counts the requests received. *)
Definition demo_provider : Provider nat :=
  mkProvider
    (fun key n =>
       if String.eqb key "badkey" then
         (Raise (mkExc AuthenticationError "Incorrect API key provided"), S n)
       else if String.eqb key "unset" then
         (Raise (mkExc OpenAIError "The api_key client option must be set"), S n)
       else (Return (mkClient key), S n))
    (fun client n =>
       if String.eqb (api_key client) "sk-nolist" then
         (Raise (mkExc APIConnectionError "Connection error."), S n)
       else
         (Return [mkModel "whisper-1"; mkModel "gpt-4.1"; mkModel "GPT-4-VISION";
                  mkModel "gpt-4o"; mkModel "ft:gpt-3.5-turbo:acme"], S n))
    (fun client req n =>
       if String.eqb (model req) "gpt-4o" then
         (Return (mkChatCompletion "Hi"), S n)
       else if String.eqb (model req) "gpt-4" then
         (Raise (mkExc PermissionDeniedError "no access"), S n)
       else if String.eqb (model req) "gpt-4-32k" then
         (Raise (mkExc NotFoundError "no such model"), S n)
       else if String.eqb (model req) "gpt-4-turbo" then
         (Raise (mkExc RateLimitError "slow down"), S n)
       else if String.eqb (model req) "gpt-4.1" then
         (Raise (mkExc InternalServerError "server exploded"), S n)
       else if String.eqb (model req) "gpt-3.5-turbo" then
         (Raise (mkExc (OtherError "ValueError") "bad json"), S n)
       else if String.eqb (model req) "gpt-4o-mini" then
         (Raise (mkExc AuthenticationError "key revoked"), S n)
       else (Return (mkChatCompletion "Hello"), S n)).

(** One possible iteration order of a set: first occurrences dropped,
    then reversed. *)
Definition demo_list_of_set (l : list string) : list string :=
  rev (nodup string_dec l).

End Demo.

(* ===================================================================== *)
(** ** The vocabulary of the specification *)
(* ===================================================================== *)

(** The request that a probe of [model] sends. *)
Definition probe_request (model : string) : ChatRequest :=
  mkChatRequest model [("user", "Hello")] 5 0.

(** The provider raises errors only: whatever it raises, at client
    construction, enumeration or probe, is an instance of [Exception]
    (and not a bare [BaseException] such as [KeyboardInterrupt]). *)
Definition raises_only_errors {W : Type} (P : Provider W) : Prop :=
  (forall key w e w',
      client_init P key w = (Raise e, w') -> isinstance e Exception = true) /\
  (forall client w e w',
      models_list P client w = (Raise e, w') ->
      isinstance e Exception = true) /\
  (forall client req w e w',
      chat_completions_create P client req w = (Raise e, w') ->
      isinstance e Exception = true).

(** The error categories of the table of section 4.2. *)
Inductive Category : Type :=
  | Completed
  | AuthenticationRejected
  | PermissionDenied
  | ModelUnknown
  | RateLimited
  | ProviderError
  | UnexpectedFailure.

(** The precedence of the specification: authentication, permission,
    not-found, rate-limit, generic API error, unexpected error. *)
Definition spec_precedence : list (PyClass * Category) :=
  [ (AuthenticationError, AuthenticationRejected);
    (PermissionDeniedError, PermissionDenied);
    (NotFoundError, ModelUnknown);
    (RateLimitError, RateLimited);
    (APIError, ProviderError);
    (Exception, UnexpectedFailure) ].

(** The category of a provider response: the first one of the precedence
    that the response falls under. *)
Definition spec_category (r : outcome ChatCompletion) : option Category :=
  match r with
  | Return _ => Some Completed
  | Raise e =>
      option_map snd (find (fun p => isinstance e (fst p)) spec_precedence)
  end.

(** The detail string of a response. *)
Definition detail (r : outcome ChatCompletion) : string :=
  match r with
  | Return _ => EmptyString
  | Raise e => str e
  end.

(** The table of section 4.2, row by row. *)
Definition spec_outcome (c : Category) (detail : string) : ProbeOutcome :=
  match c with
  | Completed => (true, "Successfully connected")
  | AuthenticationRejected => (false, "Authentication failed - Invalid API key")
  | PermissionDenied => (false, "Permission denied - No access to this model")
  | ModelUnknown => (false, "Model not found")
  | RateLimited => (false, "Rate limit exceeded")
  | ProviderError => (false, ("API error: " ++ detail)%string)
  | UnexpectedFailure => (false, ("Unexpected error: " ++ detail)%string)
  end.

(** The family-marker filter as the specification words it: the identifier
    contains one of the two markers, compared without regard to case. *)
Definition spec_family_match (model_id : string) : bool :=
  any (fun marker => str_in marker (lower model_id)) ["gpt-4"; "gpt-3.5-turbo"].

(** An entry whose flag says what its message says. *)
Definition flag_matches_message (o : ProbeOutcome) : Prop :=
  fst o = true <-> snd o = "Successfully connected".

(** The state after a logged call that left the world in [w']. *)
Definition after {W : Type} (s : State W) (ev : Event) (w' : W) : State W :=
  mkState w' (trace s ++ [ev]) (results s).

(** The body of the probing loop of [test_api_key]. *)
Definition probe_and_store {W : Type} (P : Provider W)
    (client : Client) (model : string) : M W unit :=
  bind (test_single_model P client model) (fun r =>
  bind (results_setitem model r) (fun _ => time_sleep 100)).

(** The result set of the two short-circuit paths. *)
Definition all_failed (message : string) : dict ProbeOutcome :=
  map (fun model => (model, (false, message))) default_models.

(* ===================================================================== *)
(** ** The page around the tester *)
(* ===================================================================== *)

(** The two messages of the button handler that stop a test before it
    starts: [st.error("Please enter an API key")] and
    [st.warning("API key should start with 'sk-'")]. *)
Inductive Notice : Type :=
  | PleaseEnterKey
  | ShouldStartWithSk.

(** [s.startswith(pre)] *)
Definition startswith (s pre : string) : bool := prefix pre s.

(** The body of [if st.button("Test API Key", ...):].  It is given the text
    of the input field and [st.session_state.test_results], and returns the
    notice shown, if any, with the new [st.session_state.test_results].  An
    exception of [test_api_key] leaves the session as it was and reaches the
    framework. *)
Definition on_test_button {W : Type} (P : Provider W)
    (list_of_set : list string -> list string)
    (api_key : string) (test_results : dict ProbeOutcome) (s : State W)
  : outcome (option Notice * dict ProbeOutcome) * State W :=
  match api_key with
  | EmptyString => (Return (Some PleaseEnterKey, test_results), s)
  | _ =>
      if negb (startswith api_key "sk-") then
        (Return (Some ShouldStartWithSk, test_results), s)
      else
        match test_api_key P list_of_set api_key s with
        | (Return rs, s') => (Return (None, rs), s')
        | (Raise e, s') => (Raise e, s')
        end
  end.

(** The order of Python on [bool]: [False < True]. *)
Definition bool_compare (a b : bool) : comparison :=
  match a, b with
  | false, true => Lt
  | true, false => Gt
  | _, _ => Eq
  end.

(** The order of Python on the tuples [(model, (success, message))]: the
    first component that differs decides. *)
Definition item_compare (a b : string * ProbeOutcome) : comparison :=
  match String.compare (fst a) (fst b) with
  | Eq =>
      match bool_compare (fst (snd a)) (fst (snd b)) with
      | Eq => String.compare (snd (snd a)) (snd (snd b))
      | c => c
      end
  | c => c
  end.

Definition item_leb (a b : string * ProbeOutcome) : bool :=
  match item_compare a b with
  | Gt => false
  | _ => true
  end.

(** [sorted(test_results.items())] *)
Fixpoint insert_item (x : string * ProbeOutcome)
    (l : list (string * ProbeOutcome)) : list (string * ProbeOutcome) :=
  match l with
  | [] => [x]
  | y :: l' => if item_leb x y then x :: l else y :: insert_item x l'
  end.

Definition sorted_items (test_results : dict ProbeOutcome)
  : list (string * ProbeOutcome) :=
  fold_right insert_item [] test_results.

(** One turn of the loop that fills [successful_models] and
    [failed_models]. *)
Definition classify_item
    (lists : list (string * string) * list (string * string))
    (item : string * ProbeOutcome)
  : list (string * string) * list (string * string) :=
  let '(model, (success, message)) := item in
  if success then (fst lists ++ [(model, message)], snd lists)
  else (fst lists, snd lists ++ [(model, message)]).

(** The pair [(successful_models, failed_models)] after the loop. *)
Definition display_lists (test_results : dict ProbeOutcome)
  : list (string * string) * list (string * string) :=
  fold_left classify_item (sorted_items test_results) ([], []).

Definition successful_models (test_results : dict ProbeOutcome)
  : list (string * string) := fst (display_lists test_results).

Definition failed_models (test_results : dict ProbeOutcome)
  : list (string * string) := snd (display_lists test_results).

(** The events of one probe: the request, then the pause. *)
Definition probe_events (model : string) : list Event :=
  [EvChatCreate (probe_request model); EvSleep 100].

(** A provider that is interrupted at every call. *)
Definition interrupted_provider : Provider unit :=
  mkProvider
    (fun _ w => (Raise (mkExc KeyboardInterrupt "interrupted"), w))
    (fun _ w => (Raise (mkExc KeyboardInterrupt "interrupted"), w))
    (fun _ _ w => (Raise (mkExc KeyboardInterrupt "interrupted"), w)).

(* ===================================================================== *)
(** ** The order of strings and [sorted] *)
(* ===================================================================== *)

Module StrOrder.

Definition le (a b : string) : Prop := (a <=? b)%string = true.
Definition lt (a b : string) : Prop := (a <? b)%string = true.

Lemma ascii_compare_refl (a : ascii) : Ascii.compare a a = Eq.
Proof. unfold Ascii.compare. apply N.compare_refl. Qed.

Lemma compare_refl (s : string) : String.compare s s = Eq.
Proof.
  induction s as [|a s IH]; simpl; [reflexivity|].
  now rewrite ascii_compare_refl.
Qed.

Lemma compare_not_gt_trans (a b c : string) :
  String.compare a b <> Gt -> String.compare b c <> Gt ->
  String.compare a c <> Gt.
Proof.
  revert b c.
  induction a as [|x a IH]; intros [|y b] [|z c]; simpl; try congruence.
  unfold Ascii.compare.
  destruct (N.compare_spec (N_of_ascii x) (N_of_ascii y));
    destruct (N.compare_spec (N_of_ascii y) (N_of_ascii z));
    destruct (N.compare_spec (N_of_ascii x) (N_of_ascii z));
    try congruence; try lia; eauto.
Qed.

Lemma le_iff (a b : string) : le a b <-> String.compare a b <> Gt.
Proof.
  unfold le, String.leb.
  destruct (String.compare a b); split; congruence.
Qed.

Lemma le_refl (a : string) : le a a.
Proof. apply le_iff. rewrite compare_refl. discriminate. Qed.

Lemma le_trans (a b c : string) : le a b -> le b c -> le a c.
Proof. rewrite !le_iff. apply compare_not_gt_trans. Qed.

Lemma le_antisym (a b : string) : le a b -> le b a -> a = b.
Proof. apply String.leb_antisym. Qed.

Lemma le_total (a b : string) : le a b \/ le b a.
Proof. apply String.leb_total. Qed.

Lemma lt_iff (a b : string) : lt a b <-> le a b /\ a <> b.
Proof.
  unfold lt, le, String.ltb, String.leb.
  destruct (String.compare a b) eqn:E; split; try intuition congruence.
  - apply String.compare_eq_iff in E. intros [_ H]. contradiction.
  - intros _. split; [reflexivity|]. intros ->.
    rewrite compare_refl in E. discriminate.
Qed.

Lemma insert_sorted_perm (x : string) (l : list string) :
  Permutation (insert_sorted x l) (x :: l).
Proof.
  induction l as [|y l IH]; simpl; [reflexivity|].
  destruct (x <=? y)%string; [reflexivity|].
  rewrite IH. apply perm_swap.
Qed.

Lemma sorted_perm (l : list string) : Permutation (sorted l) l.
Proof.
  induction l as [|x l IH]; simpl; [constructor|].
  rewrite insert_sorted_perm. now constructor.
Qed.

Lemma insert_sorted_ascending (x : string) (l : list string) :
  StronglySorted le l -> StronglySorted le (insert_sorted x l).
Proof.
  induction 1 as [|y l Hl IH Hy]; simpl.
  - repeat constructor.
  - destruct (x <=? y)%string eqn:E.
    + constructor; [now constructor|].
      constructor; [exact E|].
      eapply Forall_impl; [|exact Hy].
      intros z Hz. eapply le_trans; [exact E|exact Hz].
    + constructor; [exact IH|].
      eapply Permutation_Forall.
      * symmetry. apply insert_sorted_perm.
      * constructor; [|exact Hy].
        destruct (le_total x y) as [H|H]; [unfold le in H; congruence|exact H].
Qed.

Lemma sorted_ascending (l : list string) : StronglySorted le (sorted l).
Proof.
  induction l as [|x l IH]; simpl; [constructor|].
  now apply insert_sorted_ascending.
Qed.

(** An ascending list is determined by its elements. *)
Lemma ascending_unique (l1 l2 : list string) :
  StronglySorted le l1 -> StronglySorted le l2 -> Permutation l1 l2 ->
  l1 = l2.
Proof.
  intros H1. revert l2.
  induction H1 as [|x l1 Hs1 IH Hx]; intros l2 H2 Hp.
  - apply Permutation_nil in Hp. now subst.
  - destruct H2 as [|y l2 Hs2 Hy].
    + symmetry in Hp. apply Permutation_nil in Hp. discriminate.
    + assert (x = y) as ->.
      { assert (In x (y :: l2)) as Hin1
          by (eapply Permutation_in; [exact Hp|now left]).
        assert (In y (x :: l1)) as Hin2
          by (eapply Permutation_in; [symmetry; exact Hp|now left]).
        destruct Hin1 as [->|Hin1]; [reflexivity|].
        destruct Hin2 as [->|Hin2]; [reflexivity|].
        rewrite Forall_forall in Hx, Hy.
        apply le_antisym; auto. }
      f_equal. apply IH; [exact Hs2|].
      eapply Permutation_cons_inv; exact Hp.
Qed.

Lemma sorted_of_permutation (l l' : list string) :
  Permutation l l' -> sorted l = sorted l'.
Proof.
  intros Hp. apply ascending_unique; try apply sorted_ascending.
  rewrite !sorted_perm. exact Hp.
Qed.

Lemma sorted_In (l : list string) (x : string) : In x (sorted l) <-> In x l.
Proof.
  split; apply Permutation_in; [|symmetry]; apply sorted_perm.
Qed.

Lemma sorted_NoDup (l : list string) : NoDup l -> NoDup (sorted l).
Proof.
  apply Permutation_NoDup. symmetry. apply sorted_perm.
Qed.

(** Without duplicates, ascending is strictly ascending. *)
Lemma ascending_strict (l : list string) :
  StronglySorted le l -> NoDup l -> StronglySorted lt l.
Proof.
  induction 1 as [|x l Hs IH Hx]; intros Hnd; constructor.
  - apply IH. now inversion Hnd.
  - inversion Hnd as [|? ? Hnin _]; subst.
    rewrite Forall_forall in *. intros y Hy.
    apply lt_iff. split; [now apply Hx|].
    intros ->. contradiction.
Qed.

End StrOrder.

(* ===================================================================== *)
(** ** Dictionaries and traces *)
(* ===================================================================== *)

Section DictFacts.

Context {V : Type}.

Lemma keys_setitem_new (d : dict V) (k : string) (v : V) :
  ~ In k (keys d) -> keys (setitem d k v) = keys d ++ [k].
Proof.
  induction d as [|[k' v'] d IH]; simpl; intros Hnin; [reflexivity|].
  destruct (String.eqb_spec k' k) as [->|Hne].
  - exfalso. apply Hnin. now left.
  - simpl. f_equal. apply IH. intros H. apply Hnin. now right.
Qed.

Lemma setitem_Forall (Q : string * V -> Prop) (d : dict V) k v :
  Forall Q d -> Q (k, v) -> Forall Q (setitem d k v).
Proof.
  induction 1 as [|[k' v'] d Hq Hd IH]; simpl; intros Hk.
  - now repeat constructor.
  - destruct (String.eqb k' k); constructor; auto.
Qed.

Lemma getitem_setitem (d : dict V) k v : getitem (setitem d k v) k = Some v.
Proof.
  induction d as [|[k' v'] d IH]; simpl.
  - now rewrite String.eqb_refl.
  - destruct (String.eqb k' k) eqn:E; simpl.
    + now rewrite String.eqb_refl.
    + now rewrite E.
Qed.

End DictFacts.

Lemma probes_app (t1 t2 : list Event) :
  probes (t1 ++ t2) = probes t1 ++ probes t2.
Proof.
  induction t1 as [|[] t1 IH]; simpl; auto. now rewrite IH.
Qed.

(* ===================================================================== *)
(** ** Exceptions *)
(* ===================================================================== *)

Lemma authentication_is_error (e : PyExc) :
  isinstance e AuthenticationError = true -> isinstance e Exception = true.
Proof.
  destruct e as [c d]. unfold isinstance. simpl.
  destruct c; vm_compute; congruence.
Qed.

Lemma error_has_category (e : PyExc) :
  isinstance e Exception = true -> spec_category (Raise e) <> None.
Proof.
  unfold spec_category, spec_precedence. simpl. intros H.
  repeat match goal with
         | |- context [if ?b then _ else _] => destruct b
         end; simpl; congruence.
Qed.

(** An authentication error also matches the two last clauses, and a
    connection error the last one: the order of the clauses decides. *)
Lemma later_clauses_also_match :
  issubclass AuthenticationError APIError = true /\
  issubclass AuthenticationError Exception = true /\
  issubclass APIConnectionError Exception = true /\
  spec_category (Raise (mkExc AuthenticationError "401")) =
    Some AuthenticationRejected /\
  spec_category (Raise (mkExc APIConnectionError "reset")) =
    Some ProviderError.
Proof. repeat split. Qed.

(** The messages of the table tell the categories apart. *)
Lemma spec_outcome_message_injective (c1 c2 : Category) (d1 d2 : string) :
  snd (spec_outcome c1 d1) = snd (spec_outcome c2 d2) -> c1 = c2.
Proof.
  destruct c1, c2; simpl; intros H; try reflexivity; discriminate H.
Qed.

Lemma spec_outcome_flag (c : Category) (d : string) :
  flag_matches_message (spec_outcome c d).
Proof.
  unfold flag_matches_message.
  destruct c; simpl; split; intros H; try reflexivity; discriminate H.
Qed.

(* ===================================================================== *)
(** ** Running the three functions *)
(* ===================================================================== *)

Section Runs.

Variable W : Type.
Variable P : Provider W.
Variable list_of_set : list string -> list string.

(** [test_single_model] sends one request and answers by the table; an
    exception outside every category propagates. *)
Lemma test_single_model_run (client : Client) (m : string) (s : State W) :
  test_single_model P client m s =
  let (r, w') := chat_completions_create P client (probe_request m) (world s) in
  (match spec_category r with
   | Some c => Return (spec_outcome c (detail r))
   | None => match r with
             | Raise e => Raise e
             | Return _ => Return (spec_outcome Completed EmptyString)
             end
   end,
   after s (EvChatCreate (probe_request m)) w').
Proof.
  unfold test_single_model, try_except, bind, client_chat_completions_create,
    call, after, probe_request.
  destruct (chat_completions_create P client _ (world s)) as [[resp|e] w'];
    simpl; [reflexivity|].
  repeat match goal with
         | |- context [if ?b then _ else _] => destruct b; simpl
         end; reflexivity.
Qed.

(** [get_available_models] sends one request; an error gives the empty
    list. *)
Lemma get_available_models_run (client : Client) (s : State W) :
  get_available_models P client s =
  let (r, w') := models_list P client (world s) in
  (match r with
   | Return models =>
       Return (sorted (map id (filter (fun x => is_gpt_model (id x)) models)))
   | Raise e => if isinstance e Exception then Return [] else Raise e
   end,
   after s EvModelsList w').
Proof.
  unfold get_available_models, try_except, bind, client_models_list, call,
    after.
  destruct (models_list P client (world s)) as [[models|e] w']; simpl;
    [reflexivity|].
  destruct (isinstance e Exception); reflexivity.
Qed.

Hypothesis probes_raise_errors :
  forall client req w e w',
    chat_completions_create P client req w = (Raise e, w') ->
    isinstance e Exception = true.

Lemma test_single_model_returns (client : Client) (m : string) (s : State W) :
  exists o w',
    test_single_model P client m s =
      (Return o, after s (EvChatCreate (probe_request m)) w') /\
    flag_matches_message o.
Proof.
  rewrite test_single_model_run.
  destruct (chat_completions_create P client (probe_request m) (world s))
    as [r w'] eqn:E.
  destruct (spec_category r) as [c|] eqn:Hc.
  - exists (spec_outcome c (detail r)), w'. split; [reflexivity|].
    apply spec_outcome_flag.
  - destruct r as [resp|e]; [discriminate Hc|].
    apply probes_raise_errors in E.
    apply error_has_category in E. contradiction.
Qed.

Lemma probe_and_store_returns (client : Client) (m : string) (s : State W) :
  exists o w',
    flag_matches_message o /\
    probe_and_store P client m s =
      (Return tt,
       mkState w'
         ((trace s ++ [EvChatCreate (probe_request m)]) ++ [EvSleep 100])
         (setitem (results s) m o)).
Proof.
  destruct (test_single_model_returns client m s) as (o & w' & Hrun & Ho).
  exists o, w'. split; [exact Ho|].
  unfold probe_and_store, bind. rewrite Hrun. reflexivity.
Qed.

(** The loop probes every model of the list, in the order of the list,
    and stores one outcome for each. *)
Lemma probe_loop (client : Client) (ms : list string) :
  forall s : State W,
  exists s',
    for_each ms (probe_and_store P client) s = (Return tt, s') /\
    probes (trace s') = probes (trace s) ++ ms /\
    (Forall (fun kv => flag_matches_message (snd kv)) (results s) ->
     Forall (fun kv => flag_matches_message (snd kv)) (results s')) /\
    (NoDup ms -> (forall m, In m ms -> ~ In m (keys (results s))) ->
     keys (results s') = keys (results s) ++ ms).
Proof.
  induction ms as [|m ms IH]; intros s.
  - exists s. simpl. unfold ret. rewrite !app_nil_r. auto.
  - destruct (probe_and_store_returns client m s) as (o & w' & Ho & Hrun).
    simpl. unfold bind at 1. rewrite Hrun.
    match goal with |- context [for_each ms _ ?s1] =>
      destruct (IH s1) as (s' & Hloop & Hpr & Hflag & Hkeys) end.
    exists s'. simpl in *. split; [exact Hloop|].
    split; [|split].
    + rewrite Hpr, !probes_app. simpl. rewrite app_nil_r, <- app_assoc.
      reflexivity.
    + intros HF. apply Hflag. apply setitem_Forall; assumption.
    + intros Hnd Hfresh. inversion Hnd as [|? ? Hnin Hnd']; subst.
      assert (~ In m (keys (results s))) as Hm by (apply Hfresh; now left).
      rewrite Hkeys; [rewrite keys_setitem_new by exact Hm;
                      now rewrite <- app_assoc | exact Hnd' |].
      intros m' Hin'. rewrite keys_setitem_new by exact Hm.
      rewrite in_app_iff. intros [H|[->|[]]]; [|contradiction].
      revert H. apply Hfresh. now right.
Qed.

End Runs.

Section Orchestrator.

Variable W : Type.
Variable P : Provider W.
Variable list_of_set : list string -> list string.

(** Sorting makes the iteration order of the set irrelevant. *)
Lemma sorted_list_of_set (l : list string) :
  set_iteration list_of_set ->
  sorted (list_of_set l) = sorted (nodup string_dec l).
Proof.
  intros Hset. destruct (Hset l) as [Hnd Hin].
  apply StrOrder.sorted_of_permutation.
  apply NoDup_Permutation; [exact Hnd|apply NoDup_nodup|].
  intros x. rewrite Hin. symmetry. apply nodup_In.
Qed.

(** Client construction raises an authentication error: first handler. *)
Lemma test_api_key_authentication_failure
    (key : string) (s : State W) (e : PyExc) (w1 : W) :
  client_init P key (world s) = (Raise e, w1) ->
  isinstance e AuthenticationError = true ->
  test_api_key P list_of_set key s =
    (Return (all_failed "Invalid API key"),
     mkState w1 (trace s ++ [EvClientInit key])
       (all_failed "Invalid API key")).
Proof.
  intros Hinit Hauth.
  unfold test_api_key, bind, assign_results, try_except, OpenAI, call.
  simpl. rewrite Hinit. simpl. rewrite Hauth. reflexivity.
Qed.

(** Client construction raises another error: second handler. *)
Lemma test_api_key_client_failure
    (key : string) (s : State W) (e : PyExc) (w1 : W) :
  client_init P key (world s) = (Raise e, w1) ->
  isinstance e AuthenticationError = false ->
  isinstance e Exception = true ->
  test_api_key P list_of_set key s =
    (Return (all_failed ("Client error: " ++ str e)),
     mkState w1 (trace s ++ [EvClientInit key])
       (all_failed ("Client error: " ++ str e))).
Proof.
  intros Hinit Hauth Herr.
  unfold test_api_key, bind, assign_results, try_except, OpenAI, call.
  simpl. rewrite Hinit. simpl. rewrite Hauth, Herr. reflexivity.
Qed.

(** Client construction returns: enumeration, then the probing loop. *)
Lemma test_api_key_probing
    (key : string) (s : State W) (client : Client) (w1 : W) :
  raises_only_errors P ->
  client_init P key (world s) = (Return client, w1) ->
  exists available w2 s',
    get_available_models P client
        (mkState w1 (trace s ++ [EvClientInit key]) []) =
      (Return available,
       mkState w2 ((trace s ++ [EvClientInit key]) ++ [EvModelsList]) []) /\
    test_api_key P list_of_set key s = (Return (results s'), s') /\
    probes (trace s') =
      probes (trace s) ++
      sorted (list_of_set (default_models ++ available)) /\
    Forall (fun kv => flag_matches_message (snd kv)) (results s') /\
    (set_iteration list_of_set ->
     keys (results s') =
       sorted (list_of_set (default_models ++ available))).
Proof.
  intros (_ & Hlist & Hchat) Hinit.
  set (s1 := mkState w1 (trace s ++ [EvClientInit key]) []).
  assert (exists available w2,
             get_available_models P client s1 =
               (Return available, after s1 EvModelsList w2))
    as (available & w2 & Hav).
  { rewrite get_available_models_run.
    destruct (models_list P client (world s1)) as [[models|e] w2] eqn:E.
    - eauto.
    - apply Hlist in E. rewrite E. eauto. }
  set (ms := sorted (list_of_set (default_models ++ available))).
  destruct (probe_loop W P Hchat client ms (after s1 EvModelsList w2))
    as (s' & Hloop & Hpr & Hflag & Hkeys).
  exists available, w2, s'.
  split; [exact Hav|].
  split; [|split; [|split]].
  - unfold test_api_key, bind, assign_results, try_except, OpenAI, call,
      read_results.
    simpl. rewrite Hinit. fold s1. rewrite Hav.
    match goal with
    | |- context [for_each ?l ?f ?st] =>
        change (for_each l f st) with (for_each ms (probe_and_store P client) st)
    end.
    rewrite Hloop. reflexivity.
  - rewrite Hpr. unfold after, s1. simpl. rewrite !probes_app. simpl.
    now rewrite !app_nil_r.
  - apply Hflag. constructor.
  - intros Hset. rewrite Hkeys; [reflexivity| |intros m _ []].
    apply StrOrder.sorted_NoDup. apply Hset.
Qed.

End Orchestrator.

(* ===================================================================== *)
(** ** The family filter *)
(* ===================================================================== *)

Lemma prefix_trans (a b s : string) :
  prefix a b = true -> prefix b s = true -> prefix a s = true.
Proof.
  revert b s. induction a as [|x a IH]; intros [|y b] [|z s]; simpl;
    try congruence.
  destruct (ascii_dec x y) as [->|]; [|congruence].
  destruct (ascii_dec y z) as [->|]; [|congruence].
  apply IH.
Qed.

Lemma prefix_lower (a s : string) :
  prefix a s = true -> prefix (lower a) (lower s) = true.
Proof.
  revert s. induction a as [|x a IH]; intros [|y s]; simpl; try congruence.
  destruct (ascii_dec x y) as [->|]; [|congruence].
  destruct (ascii_dec (lower_ascii y) (lower_ascii y)); [apply IH|congruence].
Qed.

Lemma str_in_prefix (a b s : string) :
  prefix a b = true -> str_in b s = true -> str_in a s = true.
Proof.
  intros Hab. induction s as [|c s IH]; cbn [str_in]; rewrite !orb_true_iff.
  - intros [H|H]; [left; eapply prefix_trans; eauto|discriminate].
  - intros [H|H]; [left; eapply prefix_trans; eauto|right; auto].
Qed.

Lemma str_in_lower (a s : string) :
  str_in a s = true -> str_in (lower a) (lower s) = true.
Proof.
  induction s as [|c s IH]; cbn [str_in lower]; rewrite !orb_true_iff.
  - intros [H|H]; [left|discriminate].
    apply (prefix_lower a EmptyString). exact H.
  - intros [H|H]; [left|right; auto].
    apply (prefix_lower a (String c s)). exact H.
Qed.

(** The test on the lowered identifier adds nothing: the comprehension
    keeps the identifiers that contain a marker exactly as written. *)
Lemma is_gpt_model_exact (model_id : string) :
  is_gpt_model model_id =
  str_in "gpt-4" model_id || str_in "gpt-3.5-turbo" model_id.
Proof.
  unfold is_gpt_model, any. simpl. rewrite orb_false_r.
  destruct (str_in "gpt-4" model_id) eqn:E4;
    [|destruct (str_in "gpt-3.5-turbo" model_id) eqn:E3].
  - apply str_in_lower in E4.
    apply (str_in_prefix "gpt" (lower "gpt-4")) in E4; [|reflexivity].
    now rewrite E4.
  - apply str_in_lower in E3.
    apply (str_in_prefix "gpt" (lower "gpt-3.5-turbo")) in E3; [|reflexivity].
    now rewrite E3.
  - apply andb_false_r.
Qed.

(** What the code keeps, the specification keeps. *)
Lemma is_gpt_model_spec_family_match (model_id : string) :
  is_gpt_model model_id = true -> spec_family_match model_id = true.
Proof.
  rewrite is_gpt_model_exact. unfold spec_family_match, any. simpl.
  rewrite !orb_true_iff. intros [H|H]; apply str_in_lower in H; auto.
Qed.

(* ===================================================================== *)
(** ** The concrete provider *)
(* ===================================================================== *)

Lemma demo_set_iteration : set_iteration Demo.demo_list_of_set.
Proof.
  intros l. unfold Demo.demo_list_of_set. split.
  - apply NoDup_rev, NoDup_nodup.
  - intros x. rewrite <- in_rev. apply nodup_In.
Qed.

Lemma demo_raises_only_errors : raises_only_errors Demo.demo_provider.
Proof.
  repeat split; simpl; intros;
    repeat match goal with
           | H : (if ?b then _ else _) = _ |- _ => destruct b
           end;
    match goal with
    | H : (_, _) = (_, _) |- _ => inversion H; subst; reflexivity
    end.
Qed.

(** The scenario of the specification: with a valid credential, "gpt-4o"
    succeeds and "gpt-4" is denied. *)
Example scenario_valid_credential :
  let rs := fst (test_api_key Demo.demo_provider Demo.demo_list_of_set
                   "sk-valid123" (initial_state 0)) in
  match rs with
  | Return d =>
      getitem d "gpt-4o" = Some (true, "Successfully connected") /\
      getitem d "gpt-4" =
        Some (false, "Permission denied - No access to this model") /\
      page_summary d = Some PartiallyValid
  | Raise _ => False
  end.
Proof. vm_compute. repeat split. Qed.

(** An exception that is not an error is caught nowhere. *)
Example keyboard_interrupt_propagates :
  let P := mkProvider
             (fun key (w : unit) => (Return (mkClient key), w))
             (fun _ w => (Return [], w))
             (fun _ _ w => (Raise (mkExc KeyboardInterrupt "interrupted"), w)) in
  fst (test_api_key P Demo.demo_list_of_set "sk-x" (initial_state tt)) =
  Raise (mkExc KeyboardInterrupt "interrupted").
Proof. reflexivity. Qed.

(* ===================================================================== *)
(** ** The properties of the specification *)
(* ===================================================================== *)

Lemma all_failed_keys (message : string) :
  keys (all_failed message) = default_models.
Proof. reflexivity. Qed.

Lemma all_failed_entries (message : string) (kv : string * ProbeOutcome) :
  In kv (all_failed message) -> snd kv = (false, message).
Proof.
  unfold all_failed. rewrite in_map_iff. intros (m & <- & _). reflexivity.
Qed.

(** C1. A probe answers by the category of the provider response alone, the
    category being the first of authentication, permission, not-found,
    rate-limit, generic API error, unexpected error that the response falls
    under; every raised error has a category; and the messages of two
    different categories differ, whatever the details. *)
Theorem probe_outcome_by_category :
  forall (W : Type) (P : Provider W) (client : Client) (m : string)
         (s : State W),
    let r := fst (chat_completions_create P client (probe_request m)
                    (world s)) in
    (forall c, spec_category r = Some c ->
       fst (test_single_model P client m s) =
         Return (spec_outcome c (detail r))) /\
    (forall e, r = Raise e -> isinstance e Exception = true ->
       exists c, spec_category r = Some c) /\
    (forall c1 c2 d1 d2, c1 <> c2 ->
       snd (spec_outcome c1 d1) <> snd (spec_outcome c2 d2)).
Proof.
  intros W P client m s r. split; [|split].
  - intros c Hc. rewrite test_single_model_run. subst r.
    destruct (chat_completions_create P client (probe_request m) (world s))
      as [r w']. simpl in *. now rewrite Hc.
  - intros e -> Herr. apply error_has_category in Herr.
    destruct (spec_category (Raise e)) as [c|]; [eauto|contradiction].
  - intros c1 c2 d1 d2 Hne Heq. apply Hne.
    eapply spec_outcome_message_injective; exact Heq.
Qed.

Lemma probe_outcome_by_category_witness :
  fst (test_single_model Demo.demo_provider (mkClient "sk-valid123") "gpt-4.1"
         (initial_state 0)) =
    Return (false, "API error: server exploded") /\
  snd (spec_outcome ProviderError "x") <> snd (spec_outcome UnexpectedFailure "x").
Proof.
  destruct (probe_outcome_by_category nat Demo.demo_provider
              (mkClient "sk-valid123") "gpt-4.1" (initial_state 0))
    as (Hrow & _ & Hdiff).
  split.
  - apply (Hrow ProviderError). reflexivity.
  - apply Hdiff. discriminate.
Defined.

(** C2. When client construction succeeds, the keys of the result set are
    the default list and the filtered dynamic list merged, without
    duplicates, in ascending lexicographic order; every model probed has
    exactly one entry; and the probes were sent in that order. *)
Theorem result_keys_sorted_union :
  forall (W : Type) (P : Provider W) (list_of_set : list string -> list string)
         (key : string) (s : State W) (client : Client) (w1 : W),
    set_iteration list_of_set ->
    raises_only_errors P ->
    client_init P key (world s) = (Return client, w1) ->
    exists available rs s',
      fst (get_available_models P client
             (mkState w1 (trace s ++ [EvClientInit key]) [])) =
        Return available /\
      test_api_key P list_of_set key s = (Return rs, s') /\
      keys rs = sorted (nodup string_dec (default_models ++ available)) /\
      StronglySorted StrOrder.lt (keys rs) /\
      (forall m, In m (keys rs) <-> In m default_models \/ In m available) /\
      probes (trace s') = probes (trace s) ++ keys rs /\
      (forall m, In m (keys rs) -> count_occ string_dec (keys rs) m = 1).
Proof.
  intros W P los key s client w1 Hset Herr Hinit.
  destruct (test_api_key_probing W P los key s client w1 Herr Hinit)
    as (available & w2 & s' & Hav & Hrun & Hpr & _ & Hkeys).
  specialize (Hkeys Hset).
  assert (NoDup (keys (results s'))) as Hnd.
  { rewrite Hkeys. apply StrOrder.sorted_NoDup. apply Hset. }
  exists available, (results s'), s'.
  split; [now rewrite Hav|].
  split; [exact Hrun|].
  split; [rewrite Hkeys; now apply sorted_list_of_set|].
  split; [|split; [|split]].
  - apply StrOrder.ascending_strict; [|exact Hnd].
    rewrite Hkeys. apply StrOrder.sorted_ascending.
  - intros m. rewrite Hkeys, StrOrder.sorted_In.
    destruct (Hset (default_models ++ available)) as [_ Hin].
    rewrite Hin. apply in_app_iff.
  - now rewrite Hkeys.
  - apply NoDup_count_occ'. exact Hnd.
Qed.

Lemma result_keys_sorted_union_witness :
  set_iteration Demo.demo_list_of_set /\
  raises_only_errors Demo.demo_provider /\
  client_init Demo.demo_provider "sk-valid123" (world (initial_state 0)) =
    (Return (mkClient "sk-valid123"), 1) /\
  exists available rs s',
    fst (get_available_models Demo.demo_provider (mkClient "sk-valid123")
           (mkState 1 (trace (initial_state 0) ++ [EvClientInit "sk-valid123"])
              [])) = Return available /\
    test_api_key Demo.demo_provider Demo.demo_list_of_set "sk-valid123"
      (initial_state 0) = (Return rs, s') /\
    keys rs = sorted (nodup string_dec (default_models ++ available)) /\
    StronglySorted StrOrder.lt (keys rs) /\
    (forall m, In m (keys rs) <-> In m default_models \/ In m available) /\
    probes (trace s') = probes (trace (initial_state 0)) ++ keys rs /\
    (forall m, In m (keys rs) -> count_occ string_dec (keys rs) m = 1).
Proof.
  split; [exact demo_set_iteration|].
  split; [exact demo_raises_only_errors|].
  split; [reflexivity|].
  apply (result_keys_sorted_union nat Demo.demo_provider Demo.demo_list_of_set
           "sk-valid123" (initial_state 0) (mkClient "sk-valid123") 1).
  - exact demo_set_iteration.
  - exact demo_raises_only_errors.
  - reflexivity.
Defined.

(** C3. When client construction fails with an authentication error, the
    result set has the 7 default models and nothing else, every entry is
    (false, "Invalid API key"), and neither the model list nor any model
    was requested. *)
Theorem authentication_failure_short_circuit :
  forall (W : Type) (P : Provider W) (list_of_set : list string -> list string)
         (key : string) (s : State W) (e : PyExc) (w1 : W),
    client_init P key (world s) = (Raise e, w1) ->
    isinstance e AuthenticationError = true ->
    exists rs s',
      test_api_key P list_of_set key s = (Return rs, s') /\
      keys rs = default_models /\
      length rs = 7 /\
      (forall kv, In kv rs -> snd kv = (false, "Invalid API key")) /\
      trace s' = trace s ++ [EvClientInit key].
Proof.
  intros W P los key s e w1 Hinit Hauth.
  eexists _, _. split.
  - apply (test_api_key_authentication_failure W P los key s e w1);
      assumption.
  - repeat split. apply all_failed_entries.
Qed.

Lemma authentication_failure_short_circuit_witness :
  client_init Demo.demo_provider "badkey" (world (initial_state 0)) =
    (Raise (mkExc AuthenticationError "Incorrect API key provided"), 1) /\
  isinstance (mkExc AuthenticationError "Incorrect API key provided")
    AuthenticationError = true /\
  exists rs s',
    test_api_key Demo.demo_provider Demo.demo_list_of_set "badkey"
      (initial_state 0) = (Return rs, s') /\
    keys rs = default_models /\
    length rs = 7 /\
    (forall kv, In kv rs -> snd kv = (false, "Invalid API key")) /\
    trace s' = trace (initial_state 0) ++ [EvClientInit "badkey"].
Proof.
  split; [reflexivity|]. split; [reflexivity|].
  apply (authentication_failure_short_circuit nat Demo.demo_provider
           Demo.demo_list_of_set "badkey" (initial_state 0)
           (mkExc AuthenticationError "Incorrect API key provided") 1);
    reflexivity.
Defined.

(** C5. When client construction fails with an error that is not an
    authentication error and whose detail is [d], the result set has the
    default models and nothing else, every entry being
    (false, "Client error: " ++ d). *)
Theorem client_failure_short_circuit :
  forall (W : Type) (P : Provider W) (list_of_set : list string -> list string)
         (key : string) (s : State W) (e : PyExc) (w1 : W),
    client_init P key (world s) = (Raise e, w1) ->
    isinstance e Exception = true ->
    isinstance e AuthenticationError = false ->
    exists rs s',
      test_api_key P list_of_set key s = (Return rs, s') /\
      keys rs = default_models /\
      (forall kv, In kv rs ->
         snd kv = (false, ("Client error: " ++ str e)%string)) /\
      trace s' = trace s ++ [EvClientInit key].
Proof.
  intros W P los key s e w1 Hinit Herr Hauth.
  eexists _, _. split.
  - apply (test_api_key_client_failure W P los key s e w1); assumption.
  - repeat split. apply all_failed_entries.
Qed.

Lemma client_failure_short_circuit_witness :
  client_init Demo.demo_provider "unset" (world (initial_state 0)) =
    (Raise (mkExc OpenAIError "The api_key client option must be set"), 1) /\
  isinstance (mkExc OpenAIError "The api_key client option must be set")
    Exception = true /\
  isinstance (mkExc OpenAIError "The api_key client option must be set")
    AuthenticationError = false /\
  exists rs s',
    test_api_key Demo.demo_provider Demo.demo_list_of_set "unset"
      (initial_state 0) = (Return rs, s') /\
    keys rs = default_models /\
    (forall kv, In kv rs ->
       snd kv =
         (false, "Client error: The api_key client option must be set")) /\
    trace s' = trace (initial_state 0) ++ [EvClientInit "unset"].
Proof.
  split; [reflexivity|]. split; [reflexivity|]. split; [reflexivity|].
  apply (client_failure_short_circuit nat Demo.demo_provider
           Demo.demo_list_of_set "unset" (initial_state 0)
           (mkExc OpenAIError "The api_key client option must be set") 1);
    reflexivity.
Defined.

(** C4. The comprehension of [get_available_models] lowers the identifier
    for the "gpt" test only: an enumerated identifier that contains the
    marker "gpt-4" in upper case falls under the family filter of the
    specification and is dropped from the dynamic list all the same. *)
Theorem upper_case_marker_dropped :
  spec_family_match "GPT-4-VISION" = true /\
  is_gpt_model "GPT-4-VISION" = false /\
  models_list Demo.demo_provider (mkClient "sk-valid123") 1 =
    (Return [mkModel "whisper-1"; mkModel "gpt-4.1"; mkModel "GPT-4-VISION";
             mkModel "gpt-4o"; mkModel "ft:gpt-3.5-turbo:acme"], 2) /\
  fst (get_available_models Demo.demo_provider (mkClient "sk-valid123")
         (mkState 1 [EvClientInit "sk-valid123"] [])) =
    Return ["ft:gpt-3.5-turbo:acme"; "gpt-4.1"; "gpt-4o"].
Proof. repeat split. Qed.

(** C6. When the enumeration of the models fails with whatever error, the
    dynamic list is empty, nothing is raised, and the run probes the
    default models: the keys of the result set are the default list in
    ascending order, probed in that order. *)
Theorem enumeration_failure_is_silent :
  forall (W : Type) (P : Provider W) (list_of_set : list string -> list string)
         (key : string) (s : State W) (client : Client) (w1 w2 : W)
         (e : PyExc),
    set_iteration list_of_set ->
    raises_only_errors P ->
    client_init P key (world s) = (Return client, w1) ->
    models_list P client w1 = (Raise e, w2) ->
    fst (get_available_models P client
           (mkState w1 (trace s ++ [EvClientInit key]) [])) = Return [] /\
    exists rs s',
      test_api_key P list_of_set key s = (Return rs, s') /\
      keys rs = sorted default_models /\
      (forall m, In m default_models -> In m (keys rs)) /\
      probes (trace s') = probes (trace s) ++ sorted default_models.
Proof.
  intros W P los key s client w1 w2 e Hset Herr Hinit Hlist.
  destruct (test_api_key_probing W P los key s client w1 Herr Hinit)
    as (available & w2' & s' & Hav & Hrun & Hpr & _ & Hkeys).
  specialize (Hkeys Hset).
  assert (available = []) as ->.
  { rewrite get_available_models_run in Hav. simpl in Hav.
    rewrite Hlist in Hav. destruct Herr as (_ & He & _).
    rewrite (He _ _ _ _ Hlist) in Hav. congruence. }
  assert (sorted (los (default_models ++ [])) = sorted default_models) as Hs.
  { rewrite sorted_list_of_set by exact Hset. reflexivity. }
  rewrite Hs in *.
  split; [now rewrite Hav|].
  exists (results s'), s'. repeat split; try assumption.
  intros m Hm. rewrite Hkeys. apply StrOrder.sorted_In. exact Hm.
Qed.

Lemma enumeration_failure_is_silent_witness :
  set_iteration Demo.demo_list_of_set /\
  raises_only_errors Demo.demo_provider /\
  client_init Demo.demo_provider "sk-nolist" (world (initial_state 0)) =
    (Return (mkClient "sk-nolist"), 1) /\
  models_list Demo.demo_provider (mkClient "sk-nolist") 1 =
    (Raise (mkExc APIConnectionError "Connection error."), 2) /\
  fst (get_available_models Demo.demo_provider (mkClient "sk-nolist")
         (mkState 1 (trace (initial_state 0) ++ [EvClientInit "sk-nolist"])
            [])) = Return [] /\
  exists rs s',
    test_api_key Demo.demo_provider Demo.demo_list_of_set "sk-nolist"
      (initial_state 0) = (Return rs, s') /\
    keys rs = sorted default_models /\
    (forall m, In m default_models -> In m (keys rs)) /\
    probes (trace s') = probes (trace (initial_state 0)) ++ sorted default_models.
Proof.
  split; [exact demo_set_iteration|].
  split; [exact demo_raises_only_errors|].
  split; [reflexivity|]. split; [reflexivity|].
  apply (enumeration_failure_is_silent nat Demo.demo_provider
           Demo.demo_list_of_set "sk-nolist" (initial_state 0)
           (mkClient "sk-nolist") 1 2
           (mkExc APIConnectionError "Connection error.")).
  - exact demo_set_iteration.
  - exact demo_raises_only_errors.
  - reflexivity.
  - reflexivity.
Defined.

(** C7. Whatever the credential and whatever the provider does, returning or
    raising an error at client construction, at enumeration or at a probe,
    [test_api_key] raises nothing and returns a result set. *)
Theorem test_api_key_never_raises :
  forall (W : Type) (P : Provider W) (list_of_set : list string -> list string)
         (key : string) (s : State W),
    raises_only_errors P ->
    exists rs s', test_api_key P list_of_set key s = (Return rs, s').
Proof.
  intros W P los key s Herr.
  destruct (client_init P key (world s)) as [[client|e] w1] eqn:Hinit.
  - destruct (test_api_key_probing W P los key s client w1 Herr Hinit)
      as (_ & _ & s' & _ & Hrun & _).
    eauto.
  - assert (isinstance e Exception = true) as He
      by (destruct Herr as (H & _); eapply H; exact Hinit).
    destruct (isinstance e AuthenticationError) eqn:Hauth.
    + rewrite (test_api_key_authentication_failure W P los key s e w1);
        eauto.
    + rewrite (test_api_key_client_failure W P los key s e w1); eauto.
Qed.

Lemma test_api_key_never_raises_witness :
  raises_only_errors Demo.demo_provider /\
  exists rs s',
    test_api_key Demo.demo_provider Demo.demo_list_of_set "sk-valid123"
      (initial_state 0) = (Return rs, s').
Proof.
  split; [exact demo_raises_only_errors|].
  apply (test_api_key_never_raises nat Demo.demo_provider
           Demo.demo_list_of_set "sk-valid123" (initial_state 0)).
  exact demo_raises_only_errors.
Defined.

(** C8. For a total above zero and at most that many successes, the summary
    is "fully valid" exactly when successes = total, "partially valid"
    exactly when 0 < successes < total, and "failed" exactly when
    successes = 0; and exactly one of the three conditions holds. *)
Theorem final_summary_bands :
  forall successes total : nat,
    0 < total -> successes <= total ->
    (final_summary successes total = FullyValid <-> successes = total) /\
    (final_summary successes total = PartiallyValid <->
       0 < successes < total) /\
    (final_summary successes total = Failed <-> successes = 0) /\
    ((successes = total /\ ~ 0 < successes < total /\ successes <> 0) \/
     (successes <> total /\ 0 < successes < total /\ successes <> 0) \/
     (successes <> total /\ ~ 0 < successes < total /\ successes = 0)).
Proof.
  intros successes total Htotal Hle. unfold final_summary.
  destruct (Nat.eqb_spec successes total) as [Heq|Hne];
    [|destruct (Nat.ltb_spec 0 successes) as [Hpos|Hzero]];
    repeat split; intros; try discriminate; try lia.
Qed.

Lemma final_summary_bands_witness :
  0 < 7 /\ 3 <= 7 /\ final_summary 3 7 = PartiallyValid.
Proof.
  split; [lia|]. split; [lia|].
  apply (final_summary_bands 3 7); lia.
Defined.

(** The counts of the page meet the assumptions of the summary. *)
Lemma page_counts (test_results : dict ProbeOutcome) :
  test_results <> [] ->
  0 < count_total test_results /\
  count_successes test_results <= count_total test_results.
Proof.
  unfold count_total, count_successes, values. intros Hne. split.
  - destruct test_results; [contradiction|simpl; lia].
  - rewrite <- (length_map snd test_results). apply filter_length_le.
Qed.

Lemma flag_matches_failure (message : string) :
  message <> "Successfully connected" ->
  Forall (fun kv : string * ProbeOutcome => flag_matches_message (snd kv))
    (all_failed message).
Proof.
  intros Hne. apply Forall_forall. intros kv Hin.
  rewrite (all_failed_entries message kv Hin).
  split; simpl; intros H; [discriminate|contradiction].
Qed.

(** C9. In every result set that [test_api_key] returns, by probing or by
    either short circuit, the flag of an entry is true if and only if its
    message is "Successfully connected". *)
Theorem flag_agrees_with_message :
  forall (W : Type) (P : Provider W) (list_of_set : list string -> list string)
         (key : string) (s : State W),
    raises_only_errors P ->
    exists rs s',
      test_api_key P list_of_set key s = (Return rs, s') /\
      forall (m : string) (o : ProbeOutcome),
        In (m, o) rs -> (fst o = true <-> snd o = "Successfully connected").
Proof.
  intros W P los key s Herr.
  assert (exists rs s',
             test_api_key P los key s = (Return rs, s') /\
             Forall (fun kv => flag_matches_message (snd kv)) rs)
    as (rs & s' & Hrun & Hall).
  { destruct (client_init P key (world s)) as [[client|e] w1] eqn:Hinit.
    - destruct (test_api_key_probing W P los key s client w1 Herr Hinit)
        as (_ & _ & s' & _ & Hrun & _ & Hflag & _).
      eauto.
    - assert (isinstance e Exception = true) as He
        by (destruct Herr as (H & _); eapply H; exact Hinit).
      destruct (isinstance e AuthenticationError) eqn:Hauth.
      + rewrite (test_api_key_authentication_failure W P los key s e w1)
          by assumption.
        eexists _, _. split; [reflexivity|].
        apply flag_matches_failure. discriminate.
      + rewrite (test_api_key_client_failure W P los key s e w1)
          by assumption.
        eexists _, _. split; [reflexivity|].
        apply flag_matches_failure. discriminate. }
  exists rs, s'. split; [exact Hrun|].
  intros m o Hin. rewrite Forall_forall in Hall. apply (Hall (m, o) Hin).
Qed.

Lemma flag_agrees_with_message_witness :
  raises_only_errors Demo.demo_provider /\
  exists rs s',
    test_api_key Demo.demo_provider Demo.demo_list_of_set "sk-valid123"
      (initial_state 0) = (Return rs, s') /\
    forall (m : string) (o : ProbeOutcome),
      In (m, o) rs -> (fst o = true <-> snd o = "Successfully connected").
Proof.
  split; [exact demo_raises_only_errors|].
  apply (flag_agrees_with_message nat Demo.demo_provider
           Demo.demo_list_of_set "sk-valid123" (initial_state 0)).
  exact demo_raises_only_errors.
Defined.

(** C10. On every path, probing, authentication short circuit and general
    short circuit, the result set that [test_api_key] returns has each of
    the 7 default models among its keys, and so is not empty. *)
Theorem defaults_always_present :
  forall (W : Type) (P : Provider W) (list_of_set : list string -> list string)
         (key : string) (s : State W),
    set_iteration list_of_set ->
    raises_only_errors P ->
    exists rs s',
      test_api_key P list_of_set key s = (Return rs, s') /\
      (forall m, In m default_models -> In m (keys rs)) /\
      length default_models = 7 /\
      rs <> [].
Proof.
  intros W P los key s Hset Herr.
  assert (exists rs s',
             test_api_key P los key s = (Return rs, s') /\
             forall m, In m default_models -> In m (keys rs))
    as (rs & s' & Hrun & Hall).
  { destruct (client_init P key (world s)) as [[client|e] w1] eqn:Hinit.
    - destruct (test_api_key_probing W P los key s client w1 Herr Hinit)
        as (available & _ & s' & _ & Hrun & _ & _ & Hkeys).
      exists (results s'), s'. split; [exact Hrun|].
      intros m Hm. rewrite (Hkeys Hset), StrOrder.sorted_In.
      apply (Hset (default_models ++ available)), in_app_iff. now left.
    - assert (isinstance e Exception = true) as He
        by (destruct Herr as (H & _); eapply H; exact Hinit).
      destruct (isinstance e AuthenticationError) eqn:Hauth.
      + rewrite (test_api_key_authentication_failure W P los key s e w1)
          by assumption.
        eexists _, _. split; [reflexivity|]. now rewrite all_failed_keys.
      + rewrite (test_api_key_client_failure W P los key s e w1)
          by assumption.
        eexists _, _. split; [reflexivity|]. now rewrite all_failed_keys. }
  exists rs, s'. repeat split; try assumption.
  intros ->. apply (Hall "gpt-4o"). now left.
Qed.

Lemma defaults_always_present_witness :
  set_iteration Demo.demo_list_of_set /\
  raises_only_errors Demo.demo_provider /\
  exists rs s',
    test_api_key Demo.demo_provider Demo.demo_list_of_set "sk-valid123"
      (initial_state 0) = (Return rs, s') /\
    (forall m, In m default_models -> In m (keys rs)) /\
    length default_models = 7 /\
    rs <> [].
Proof.
  split; [exact demo_set_iteration|].
  split; [exact demo_raises_only_errors|].
  apply (defaults_always_present nat Demo.demo_provider
           Demo.demo_list_of_set "sk-valid123" (initial_state 0)).
  - exact demo_set_iteration.
  - exact demo_raises_only_errors.
Defined.

(* ===================================================================== *)
(** ** Further properties of the tester *)
(* ===================================================================== *)

Lemma not_error_has_no_category (e : PyExc) :
  isinstance e Exception = false -> spec_category (Raise e) = None.
Proof.
  destruct e as [c d]. destruct c; vm_compute; congruence.
Qed.

Lemma filter_map_id (f : string -> bool) (models : list Model) :
  map id (filter (fun x => f (id x)) models) = filter f (map id models).
Proof.
  induction models as [|x models IH]; simpl; [reflexivity|].
  destruct (f (id x)); simpl; now rewrite IH.
Qed.

Lemma setitem_new {V : Type} (d : dict V) (k : string) (v : V) :
  ~ In k (keys d) -> setitem d k v = d ++ [(k, v)].
Proof.
  induction d as [|[k' v'] d IH]; simpl; intros Hnin; [reflexivity|].
  destruct (String.eqb_spec k' k) as [->|Hne].
  - exfalso. apply Hnin. now left.
  - f_equal. apply IH. intros H. apply Hnin. now right.
Qed.

Lemma default_models_NoDup : NoDup default_models.
Proof.
  unfold default_models.
  repeat (constructor; [simpl; intuition discriminate|]). constructor.
Qed.

Section LoopFacts.

Variable W : Type.
Variable P : Provider W.

(** A turn of the loop that returns has sent one request, stored the
    outcome of [test_single_model] and paused. *)
Lemma probe_and_store_inv (client : Client) (m : string) (s s1 : State W) :
  probe_and_store P client m s = (Return tt, s1) ->
  exists o s0,
    test_single_model P client m s = (Return o, s0) /\
    trace s1 = trace s ++ probe_events m /\
    results s1 = setitem (results s) m o.
Proof.
  unfold probe_and_store, bind.
  destruct (test_single_model P client m s) as [[o|e] s0] eqn:Hrun;
    [|discriminate].
  intros H. exists o, s0. split; [reflexivity|].
  rewrite test_single_model_run in Hrun.
  destruct (chat_completions_create P client (probe_request m) (world s))
    as [r w'].
  assert (s0 = after s (EvChatCreate (probe_request m)) w') as ->
    by congruence.
  unfold results_setitem, time_sleep, after in H. simpl in H.
  injection H as <-. simpl. split; [|reflexivity].
  now rewrite <- app_assoc.
Qed.

Lemma probe_loop_trace (client : Client) (ms : list string) :
  forall s s' : State W,
    for_each ms (probe_and_store P client) s = (Return tt, s') ->
    trace s' = trace s ++ flat_map probe_events ms.
Proof.
  induction ms as [|m ms IH]; intros s s' Hrun.
  - simpl in Hrun. unfold ret in Hrun. injection Hrun as <-.
    simpl. now rewrite app_nil_r.
  - simpl in Hrun. unfold bind at 1 in Hrun.
    destruct (probe_and_store P client m s) as [[[]|e] s1] eqn:Hstep;
      [|discriminate].
    apply probe_and_store_inv in Hstep as (_ & _ & _ & Htr & _).
    apply IH in Hrun. rewrite Hrun, Htr.
    cbn [flat_map]. now rewrite !app_assoc.
Qed.

(** What holds of every outcome of [test_single_model] holds of every
    entry that the loop stores. *)
Lemma probe_loop_entries (client : Client)
    (Q : string * ProbeOutcome -> Prop) (ms : list string) :
  (forall m s o s0,
      test_single_model P client m s = (Return o, s0) -> Q (m, o)) ->
  forall s s' : State W,
    for_each ms (probe_and_store P client) s = (Return tt, s') ->
    Forall Q (results s) -> Forall Q (results s').
Proof.
  intros HQ. induction ms as [|m ms IH]; intros s s' Hrun Hall.
  - simpl in Hrun. unfold ret in Hrun. now injection Hrun as <-.
  - simpl in Hrun. unfold bind at 1 in Hrun.
    destruct (probe_and_store P client m s) as [[[]|e] s1] eqn:Hstep;
      [|discriminate].
    apply probe_and_store_inv in Hstep as (o & s0 & Ho & _ & Hres).
    apply (IH s1 s' Hrun). rewrite Hres.
    apply setitem_Forall; [exact Hall|]. eapply HQ; exact Ho.
Qed.

Variable list_of_set : list string -> list string.

(** The probing path, with the run of its loop. *)
Lemma test_api_key_probing_loop
    (key : string) (s : State W) (client : Client) (w1 : W) :
  raises_only_errors P ->
  client_init P key (world s) = (Return client, w1) ->
  exists available w2 s',
    get_available_models P client
        (mkState w1 (trace s ++ [EvClientInit key]) []) =
      (Return available,
       mkState w2 ((trace s ++ [EvClientInit key]) ++ [EvModelsList]) []) /\
    for_each (sorted (list_of_set (default_models ++ available)))
        (probe_and_store P client)
        (mkState w2 ((trace s ++ [EvClientInit key]) ++ [EvModelsList]) []) =
      (Return tt, s') /\
    test_api_key P list_of_set key s = (Return (results s'), s') /\
    (set_iteration list_of_set ->
     keys (results s') =
       sorted (list_of_set (default_models ++ available))).
Proof.
  intros (_ & Hlist & Hchat) Hinit.
  set (s1 := mkState w1 (trace s ++ [EvClientInit key]) []).
  assert (exists available w2,
             get_available_models P client s1 =
               (Return available, after s1 EvModelsList w2))
    as (available & w2 & Hav).
  { rewrite get_available_models_run.
    destruct (models_list P client (world s1)) as [[models|e] w2] eqn:E.
    - eauto.
    - apply Hlist in E. rewrite E. eauto. }
  set (ms := sorted (list_of_set (default_models ++ available))).
  destruct (probe_loop W P Hchat client ms (after s1 EvModelsList w2))
    as (s' & Hloop & _ & _ & Hkeys).
  exists available, w2, s'.
  split; [exact Hav|]. split; [exact Hloop|]. split.
  - unfold test_api_key, bind, assign_results, try_except, OpenAI, call,
      read_results.
    simpl. rewrite Hinit. fold s1. rewrite Hav.
    match goal with
    | |- context [for_each ?l ?f ?st] =>
        change (for_each l f st) with (for_each ms (probe_and_store P client) st)
    end.
    rewrite Hloop. reflexivity.
  - intros Hset. rewrite Hkeys; [reflexivity| |intros m _ []].
    apply StrOrder.sorted_NoDup. apply Hset.
Qed.

End LoopFacts.

(** X1. When the enumeration returns, [get_available_models] returns, in
    ascending order and with their multiplicity, the enumerated identifiers
    that contain "gpt-4" or "gpt-3.5-turbo" exactly as written; it sends the
    one enumeration request and leaves [results] alone. *)
Theorem get_available_models_exact_filter :
  forall (W : Type) (P : Provider W) (client : Client) (s : State W)
         (models : list Model) (w' : W),
    models_list P client (world s) = (Return models, w') ->
    exists l,
      get_available_models P client s =
        (Return l, mkState w' (trace s ++ [EvModelsList]) (results s)) /\
      StronglySorted StrOrder.le l /\
      Permutation l
        (filter (fun i => str_in "gpt-4" i || str_in "gpt-3.5-turbo" i)
           (map id models)).
Proof.
  intros W P client s models w' Hlist.
  rewrite get_available_models_run, Hlist.
  eexists. split; [reflexivity|]. split.
  - apply StrOrder.sorted_ascending.
  - rewrite StrOrder.sorted_perm, filter_map_id.
    erewrite filter_ext; [reflexivity|].
    intros i. apply is_gpt_model_exact.
Qed.

Lemma get_available_models_exact_filter_witness :
  models_list Demo.demo_provider (mkClient "sk-valid123")
    (world (initial_state 0)) =
    (Return [mkModel "whisper-1"; mkModel "gpt-4.1"; mkModel "GPT-4-VISION";
             mkModel "gpt-4o"; mkModel "ft:gpt-3.5-turbo:acme"], 1) /\
  exists l,
    get_available_models Demo.demo_provider (mkClient "sk-valid123")
      (initial_state 0) =
      (Return l, mkState 1 (trace (initial_state 0) ++ [EvModelsList])
                   (results (initial_state 0))) /\
    StronglySorted StrOrder.le l /\
    Permutation l
      (filter (fun i => str_in "gpt-4" i || str_in "gpt-3.5-turbo" i)
         (map id [mkModel "whisper-1"; mkModel "gpt-4.1";
                  mkModel "GPT-4-VISION"; mkModel "gpt-4o";
                  mkModel "ft:gpt-3.5-turbo:acme"])).
Proof.
  split; [reflexivity|].
  apply (get_available_models_exact_filter nat Demo.demo_provider
           (mkClient "sk-valid123") (initial_state 0)).
  reflexivity.
Defined.

(** X2. An exception that is not an instance of [Exception] is converted
    nowhere: raised by the provider at a probe, [test_single_model] raises
    it; at the enumeration, [get_available_models] raises it; at client
    construction, [test_api_key] raises it, with no entry stored. *)
Theorem non_errors_propagate :
  forall (W : Type) (P : Provider W) (list_of_set : list string -> list string)
         (e : PyExc),
    isinstance e Exception = false ->
    (forall client m s w',
        chat_completions_create P client (probe_request m) (world s) =
          (Raise e, w') ->
        fst (test_single_model P client m s) = Raise e) /\
    (forall client s w',
        models_list P client (world s) = (Raise e, w') ->
        fst (get_available_models P client s) = Raise e) /\
    (forall key s w',
        client_init P key (world s) = (Raise e, w') ->
        test_api_key P list_of_set key s =
          (Raise e, mkState w' (trace s ++ [EvClientInit key]) [])).
Proof.
  intros W P los e Hne. split; [|split].
  - intros client m s w' Hchat.
    rewrite test_single_model_run, Hchat.
    now rewrite (not_error_has_no_category e Hne).
  - intros client s w' Hlist.
    rewrite get_available_models_run, Hlist. simpl. now rewrite Hne.
  - intros key s w' Hinit.
    assert (isinstance e AuthenticationError = false) as Hauth.
    { destruct (isinstance e AuthenticationError) eqn:E; [|reflexivity].
      apply authentication_is_error in E. congruence. }
    unfold test_api_key, bind, assign_results, try_except, OpenAI, call.
    simpl. rewrite Hinit. simpl. now rewrite Hauth, Hne.
Qed.

Lemma non_errors_propagate_witness :
  isinstance (mkExc KeyboardInterrupt "interrupted") Exception = false /\
  test_api_key interrupted_provider Demo.demo_list_of_set "sk-valid123"
    (initial_state tt) =
    (Raise (mkExc KeyboardInterrupt "interrupted"),
     mkState tt [EvClientInit "sk-valid123"] []).
Proof.
  split; [reflexivity|].
  destruct (non_errors_propagate unit interrupted_provider
              Demo.demo_list_of_set (mkExc KeyboardInterrupt "interrupted")
              eq_refl) as (_ & _ & Hkey).
  apply (Hkey "sk-valid123" (initial_state tt) tt). reflexivity.
Defined.

(** X3. A run whose client construction succeeds does exactly this to the
    outside: one client construction, one enumeration, then for every key
    of the result set, in order, one chat request for that model (one user
    message "Hello", 5 tokens, temperature 0) followed by one pause of 100
    ms, the last probe included. *)
Theorem probing_run_trace :
  forall (W : Type) (P : Provider W) (list_of_set : list string -> list string)
         (key : string) (s : State W) (client : Client) (w1 : W),
    set_iteration list_of_set ->
    raises_only_errors P ->
    client_init P key (world s) = (Return client, w1) ->
    exists rs s',
      test_api_key P list_of_set key s = (Return rs, s') /\
      trace s' =
        trace s ++ [EvClientInit key; EvModelsList] ++
        flat_map probe_events (keys rs).
Proof.
  intros W P los key s client w1 Hset Herr Hinit.
  destruct (test_api_key_probing_loop W P los key s client w1 Herr Hinit)
    as (available & w2 & s' & _ & Hloop & Hrun & Hkeys).
  exists (results s'), s'. split; [exact Hrun|].
  apply probe_loop_trace in Hloop. rewrite Hloop, (Hkeys Hset). simpl.
  now rewrite <- !app_assoc.
Qed.

Lemma probing_run_trace_witness :
  set_iteration Demo.demo_list_of_set /\
  raises_only_errors Demo.demo_provider /\
  client_init Demo.demo_provider "sk-nolist" (world (initial_state 0)) =
    (Return (mkClient "sk-nolist"), 1) /\
  exists rs s',
    test_api_key Demo.demo_provider Demo.demo_list_of_set "sk-nolist"
      (initial_state 0) = (Return rs, s') /\
    trace s' =
      trace (initial_state 0) ++ [EvClientInit "sk-nolist"; EvModelsList] ++
      flat_map probe_events (keys rs).
Proof.
  split; [exact demo_set_iteration|].
  split; [exact demo_raises_only_errors|].
  split; [reflexivity|].
  apply (probing_run_trace nat Demo.demo_provider Demo.demo_list_of_set
           "sk-nolist" (initial_state 0) (mkClient "sk-nolist") 1).
  - exact demo_set_iteration.
  - exact demo_raises_only_errors.
  - reflexivity.
Defined.

(** X4. A run whose client construction succeeds returns at least 7 entries
    and at most 7 plus the length of the list that [get_available_models]
    returned. *)
Theorem probing_run_size :
  forall (W : Type) (P : Provider W) (list_of_set : list string -> list string)
         (key : string) (s : State W) (client : Client) (w1 : W),
    set_iteration list_of_set ->
    raises_only_errors P ->
    client_init P key (world s) = (Return client, w1) ->
    exists available rs s',
      fst (get_available_models P client
             (mkState w1 (trace s ++ [EvClientInit key]) [])) =
        Return available /\
      test_api_key P list_of_set key s = (Return rs, s') /\
      7 <= length rs <= 7 + length available.
Proof.
  intros W P los key s client w1 Hset Herr Hinit.
  destruct (test_api_key_probing_loop W P los key s client w1 Herr Hinit)
    as (available & w2 & s' & Hav & _ & Hrun & Hkeys).
  exists available, (results s'), s'.
  split; [now rewrite Hav|]. split; [exact Hrun|].
  assert (length (results s') = length (los (default_models ++ available)))
    as ->.
  { rewrite <- (length_map fst (results s')).
    change (map fst (results s')) with (keys (results s')).
    rewrite (Hkeys Hset).
    apply Permutation_length, StrOrder.sorted_perm. }
  destruct (Hset (default_models ++ available)) as [Hnd Hin]. split.
  - change 7 with (length default_models).
    apply NoDup_incl_length; [exact default_models_NoDup|].
    intros x Hx. apply Hin, in_app_iff. now left.
  - change (7 + length available)
      with (length default_models + length available).
    rewrite <- length_app.
    apply NoDup_incl_length; [exact Hnd|].
    intros x Hx. now apply Hin.
Qed.

Lemma probing_run_size_witness :
  set_iteration Demo.demo_list_of_set /\
  raises_only_errors Demo.demo_provider /\
  client_init Demo.demo_provider "sk-valid123" (world (initial_state 0)) =
    (Return (mkClient "sk-valid123"), 1) /\
  exists available rs s',
    fst (get_available_models Demo.demo_provider (mkClient "sk-valid123")
           (mkState 1 (trace (initial_state 0) ++ [EvClientInit "sk-valid123"])
              [])) = Return available /\
    test_api_key Demo.demo_provider Demo.demo_list_of_set "sk-valid123"
      (initial_state 0) = (Return rs, s') /\
    7 <= length rs <= 7 + length available.
Proof.
  split; [exact demo_set_iteration|].
  split; [exact demo_raises_only_errors|].
  split; [reflexivity|].
  apply (probing_run_size nat Demo.demo_provider Demo.demo_list_of_set
           "sk-valid123" (initial_state 0) (mkClient "sk-valid123") 1).
  - exact demo_set_iteration.
  - exact demo_raises_only_errors.
  - reflexivity.
Defined.

(** X5. The list of models to test depends on the enumerated identifiers
    only through the set they form with the default list: neither the order
    of the enumeration, nor repetitions, nor identifiers that are default
    models already change it. *)
Theorem models_to_test_depends_on_set :
  forall (list_of_set : list string -> list string)
         (available1 available2 : list string),
    set_iteration list_of_set ->
    (forall x, In x default_models \/ In x available1 <->
               In x default_models \/ In x available2) ->
    sorted (list_of_set (default_models ++ available1)) =
    sorted (list_of_set (default_models ++ available2)).
Proof.
  intros los av1 av2 Hset Hsame.
  apply StrOrder.sorted_of_permutation.
  destruct (Hset (default_models ++ av1)) as [Hnd1 Hin1].
  destruct (Hset (default_models ++ av2)) as [Hnd2 Hin2].
  apply NoDup_Permutation; [exact Hnd1|exact Hnd2|].
  intros x. rewrite Hin1, Hin2, !in_app_iff. apply Hsame.
Qed.

Lemma models_to_test_depends_on_set_witness :
  set_iteration Demo.demo_list_of_set /\
  sorted (Demo.demo_list_of_set
            (default_models ++ ["gpt-4.1"; "gpt-4o"; "gpt-4.1"])) =
  sorted (Demo.demo_list_of_set (default_models ++ ["gpt-4.1"])).
Proof.
  split; [exact demo_set_iteration|].
  apply (models_to_test_depends_on_set Demo.demo_list_of_set
           ["gpt-4.1"; "gpt-4o"; "gpt-4.1"] ["gpt-4.1"]).
  - exact demo_set_iteration.
  - intros x. simpl. intuition.
Defined.

Lemma demo_answers_by_model (client : Client) (req : ChatRequest) (w : nat) :
  fst (chat_completions_create Demo.demo_provider client req w) =
  fst (chat_completions_create Demo.demo_provider (mkClient "any")
         (probe_request (model req)) 0).
Proof.
  simpl.
  repeat match goal with
         | |- context [if ?b then _ else _] => destruct b
         end; reflexivity.
Qed.

(** X6. With a provider whose answer to a chat request depends on the model
    alone, every entry of a run whose client construction succeeds is the
    row of the table for the answer to that very model. *)
Theorem entries_reflect_answers :
  forall (W : Type) (P : Provider W) (list_of_set : list string -> list string)
         (answer : string -> outcome ChatCompletion)
         (key : string) (s : State W) (client : Client) (w1 : W),
    raises_only_errors P ->
    (forall client req w,
        fst (chat_completions_create P client req w) = answer (model req)) ->
    client_init P key (world s) = (Return client, w1) ->
    exists rs s',
      test_api_key P list_of_set key s = (Return rs, s') /\
      forall m o, In (m, o) rs ->
        exists c, spec_category (answer m) = Some c /\
                  o = spec_outcome c (detail (answer m)).
Proof.
  intros W P los answer key s client w1 Herr Hanswer Hinit.
  destruct (test_api_key_probing_loop W P los key s client w1 Herr Hinit)
    as (available & w2 & s' & _ & Hloop & Hrun & _).
  exists (results s'), s'. split; [exact Hrun|].
  assert (Forall (fun kv : string * ProbeOutcome =>
                    exists c, spec_category (answer (fst kv)) = Some c /\
                              snd kv = spec_outcome c (detail (answer (fst kv))))
            (results s')) as Hall.
  { eapply probe_loop_entries; [|exact Hloop|constructor].
    intros m s0 o s1 Hprobe. simpl.
    rewrite test_single_model_run in Hprobe.
    specialize (Hanswer client (probe_request m) (world s0)).
    destruct (chat_completions_create P client (probe_request m) (world s0))
      as [r w']. simpl in Hanswer. subst r.
    destruct (spec_category (answer m)) as [c|] eqn:Hc.
    - exists c. split; [reflexivity|]. congruence.
    - destruct (answer m); [discriminate Hc|discriminate Hprobe]. }
  intros m o Hin. rewrite Forall_forall in Hall. apply (Hall (m, o) Hin).
Qed.

Lemma entries_reflect_answers_witness :
  raises_only_errors Demo.demo_provider /\
  client_init Demo.demo_provider "sk-valid123" (world (initial_state 0)) =
    (Return (mkClient "sk-valid123"), 1) /\
  exists rs s',
    test_api_key Demo.demo_provider Demo.demo_list_of_set "sk-valid123"
      (initial_state 0) = (Return rs, s') /\
    forall m o, In (m, o) rs ->
      exists c,
        spec_category
          (fst (chat_completions_create Demo.demo_provider (mkClient "any")
                  (probe_request m) 0)) = Some c /\
        o = spec_outcome c
              (detail
                 (fst (chat_completions_create Demo.demo_provider
                         (mkClient "any") (probe_request m) 0))).
Proof.
  split; [exact demo_raises_only_errors|]. split; [reflexivity|].
  apply (entries_reflect_answers nat Demo.demo_provider Demo.demo_list_of_set
           (fun m => fst (chat_completions_create Demo.demo_provider
                            (mkClient "any") (probe_request m) 0))
           "sk-valid123" (initial_state 0) (mkClient "sk-valid123") 1).
  - exact demo_raises_only_errors.
  - exact demo_answers_by_model.
  - reflexivity.
Defined.

(** X7. The iteration order of the set does not show: with two orders,
    [test_api_key] returns the same result set, in the same order of keys,
    and leaves the same state. *)
Theorem set_order_irrelevant :
  forall (W : Type) (P : Provider W)
         (list_of_set1 list_of_set2 : list string -> list string)
         (key : string) (s : State W),
    set_iteration list_of_set1 ->
    set_iteration list_of_set2 ->
    test_api_key P list_of_set1 key s = test_api_key P list_of_set2 key s.
Proof.
  intros W P los1 los2 key s Hset1 Hset2.
  unfold test_api_key, bind, try_except, assign_results.
  destruct (OpenAI W P key _) as [[client|e] s1]; [|reflexivity].
  destruct (get_available_models P client s1) as [[available|e] s2];
    [|reflexivity].
  rewrite (sorted_list_of_set los1), (sorted_list_of_set los2) by assumption.
  reflexivity.
Qed.

Lemma set_order_irrelevant_witness :
  set_iteration Demo.demo_list_of_set /\
  set_iteration (nodup string_dec) /\
  test_api_key Demo.demo_provider Demo.demo_list_of_set "sk-valid123"
    (initial_state 0) =
  test_api_key Demo.demo_provider (nodup string_dec) "sk-valid123"
    (initial_state 0).
Proof.
  assert (set_iteration (nodup string_dec)) as Hnodup.
  { intros l. split; [apply NoDup_nodup|]. intros x. apply nodup_In. }
  split; [exact demo_set_iteration|]. split; [exact Hnodup|].
  apply (set_order_irrelevant nat Demo.demo_provider Demo.demo_list_of_set
           (nodup string_dec) "sk-valid123" (initial_state 0)).
  - exact demo_set_iteration.
  - exact Hnodup.
Defined.

(* ===================================================================== *)
(** ** The page: the two lists and the summary *)
(* ===================================================================== *)

Lemma filter_permutation {A : Type} (f : A -> bool) (l l' : list A) :
  Permutation l l' -> Permutation (filter f l) (filter f l').
Proof.
  induction 1 as [|x l l' _ IH|x y l|l l' l'' _ IH1 _ IH2]; simpl.
  - constructor.
  - destruct (f x); [now constructor|exact IH].
  - destruct (f x), (f y); try reflexivity. apply perm_swap.
  - now rewrite IH1.
Qed.

Lemma insert_item_perm (x : string * ProbeOutcome) l :
  Permutation (insert_item x l) (x :: l).
Proof.
  induction l as [|y l IH]; simpl; [reflexivity|].
  destruct (item_leb x y); [reflexivity|].
  rewrite IH. apply perm_swap.
Qed.

Lemma sorted_items_perm (d : dict ProbeOutcome) :
  Permutation (sorted_items d) d.
Proof.
  induction d as [|x d IH]; simpl; [constructor|].
  rewrite insert_item_perm. now constructor.
Qed.

(** With different models, the tuples compare as their models do. *)
Lemma item_leb_by_model (a b : string * ProbeOutcome) :
  fst a <> fst b -> item_leb a b = (fst a <=? fst b)%string.
Proof.
  intros Hne. unfold item_leb, item_compare, String.leb.
  destruct (String.compare (fst a) (fst b)) eqn:E; try reflexivity.
  apply String.compare_eq_iff in E. contradiction.
Qed.

Lemma insert_item_keys (a : string * ProbeOutcome) l :
  ~ In (fst a) (keys l) ->
  keys (insert_item a l) = insert_sorted (fst a) (keys l).
Proof.
  induction l as [|y l IH]; simpl; intros Hnin; [reflexivity|].
  rewrite item_leb_by_model by (intros H; apply Hnin; now left).
  destruct (fst a <=? fst y)%string; simpl; [reflexivity|].
  f_equal. apply IH. intros H. apply Hnin. now right.
Qed.

(** Sorting the items of a dictionary sorts its keys. *)
Lemma sorted_items_keys (d : dict ProbeOutcome) :
  NoDup (keys d) -> keys (sorted_items d) = sorted (keys d).
Proof.
  induction d as [|a d IH]; simpl; intros Hnd; [reflexivity|].
  inversion Hnd as [|? ? Hnin Hnd']; subst.
  rewrite insert_item_keys, IH; [reflexivity|exact Hnd'|].
  rewrite IH by exact Hnd'. now rewrite StrOrder.sorted_In.
Qed.

(** The loop of the page filters the sorted items twice. *)
Lemma fold_classify_item l :
  forall acc,
    fold_left classify_item l acc =
    (fst acc ++ map (fun kv : string * ProbeOutcome => (fst kv, snd (snd kv)))
                  (filter (fun kv => fst (snd kv)) l),
     snd acc ++ map (fun kv : string * ProbeOutcome => (fst kv, snd (snd kv)))
                  (filter (fun kv => negb (fst (snd kv))) l)).
Proof.
  induction l as [|[m [[] msg]] l IH]; intros [a b]; simpl.
  - now rewrite !app_nil_r.
  - rewrite IH. simpl. now rewrite <- app_assoc.
  - rewrite IH. simpl. now rewrite <- app_assoc.
Qed.

Lemma successful_models_filter (d : dict ProbeOutcome) :
  successful_models d =
  map (fun kv : string * ProbeOutcome => (fst kv, snd (snd kv)))
    (filter (fun kv => fst (snd kv)) (sorted_items d)).
Proof.
  unfold successful_models, display_lists. now rewrite fold_classify_item.
Qed.

Lemma failed_models_filter (d : dict ProbeOutcome) :
  failed_models d =
  map (fun kv : string * ProbeOutcome => (fst kv, snd (snd kv)))
    (filter (fun kv => negb (fst (snd kv))) (sorted_items d)).
Proof.
  unfold failed_models, display_lists. now rewrite fold_classify_item.
Qed.

Lemma count_successes_filter (d : dict ProbeOutcome) :
  count_successes d = length (filter (fun kv => fst (snd kv)) d).
Proof.
  unfold count_successes, values.
  induction d as [|[m [[] msg]] d IH]; simpl; auto.
Qed.

Lemma successful_models_length (d : dict ProbeOutcome) :
  length (successful_models d) = count_successes d.
Proof.
  rewrite successful_models_filter, length_map, count_successes_filter.
  apply Permutation_length, filter_permutation, sorted_items_perm.
Qed.

Lemma failed_models_length (d : dict ProbeOutcome) :
  length (successful_models d) + length (failed_models d) = count_total d.
Proof.
  rewrite successful_models_filter, failed_models_filter, !length_map.
  rewrite filter_length. unfold count_total.
  apply Permutation_length, sorted_items_perm.
Qed.

Lemma filter_keys_sorted (R : string -> string -> Prop)
    (f : string * ProbeOutcome -> bool) (l : list (string * ProbeOutcome)) :
  StronglySorted R (keys l) -> StronglySorted R (keys (filter f l)).
Proof.
  induction l as [|a l IH]; simpl; intros Hs; [constructor|].
  apply StronglySorted_inv in Hs as [Hs Ha].
  destruct (f a); simpl; [|now apply IH].
  constructor; [now apply IH|].
  rewrite Forall_forall in *. intros k Hk. apply Ha.
  unfold keys in *. rewrite in_map_iff in *.
  destruct Hk as (kv & <- & Hin). exists kv. split; [reflexivity|].
  now apply filter_In in Hin.
Qed.

(** X8. The lines of the page account for the entries: a model is listed as
    accessible with a message exactly when the result set holds it with a
    true flag and that message, as inaccessible exactly when it holds it
    with a false flag; the accessible lines are as many as the successes
    counted in the header, and the two lists together as many as the
    models tested. *)
Theorem display_lists_partition :
  forall d : dict ProbeOutcome,
    (forall m msg, In (m, msg) (successful_models d) <-> In (m, (true, msg)) d) /\
    (forall m msg, In (m, msg) (failed_models d) <-> In (m, (false, msg)) d) /\
    length (successful_models d) = count_successes d /\
    length (successful_models d) + length (failed_models d) = count_total d.
Proof.
  intros d. split; [|split; [|split]].
  - intros m msg. rewrite successful_models_filter, in_map_iff. split.
    + intros ([m' [b msg']] & Heq & Hin). simpl in Heq.
      apply filter_In in Hin as [Hin Hb]. simpl in Hb.
      injection Heq as -> ->. subst b.
      eapply Permutation_in; [apply sorted_items_perm|exact Hin].
    + intros Hin. exists (m, (true, msg)). split; [reflexivity|].
      apply filter_In. split; [|reflexivity].
      eapply Permutation_in; [symmetry; apply sorted_items_perm|exact Hin].
  - intros m msg. rewrite failed_models_filter, in_map_iff. split.
    + intros ([m' [b msg']] & Heq & Hin). simpl in Heq.
      apply filter_In in Hin as [Hin Hb]. simpl in Hb.
      injection Heq as -> ->. destruct b; [discriminate|].
      eapply Permutation_in; [apply sorted_items_perm|exact Hin].
    + intros Hin. exists (m, (false, msg)). split; [reflexivity|].
      apply filter_In. split; [|reflexivity].
      eapply Permutation_in; [symmetry; apply sorted_items_perm|exact Hin].
  - apply successful_models_length.
  - apply failed_models_length.
Qed.

(** X9. When no model occurs twice in the result set, the accessible models
    are listed in strictly ascending order of their names, and so are the
    inaccessible ones, whatever the order of the result set. *)
Theorem display_lists_ascending :
  forall d : dict ProbeOutcome,
    NoDup (keys d) ->
    StronglySorted StrOrder.lt (map fst (successful_models d)) /\
    StronglySorted StrOrder.lt (map fst (failed_models d)).
Proof.
  intros d Hnd.
  assert (StronglySorted StrOrder.lt (keys (sorted_items d))) as Hs.
  { rewrite sorted_items_keys by exact Hnd.
    apply StrOrder.ascending_strict; [apply StrOrder.sorted_ascending|].
    now apply StrOrder.sorted_NoDup. }
  rewrite successful_models_filter, failed_models_filter, !map_map. simpl.
  split; apply (filter_keys_sorted StrOrder.lt); exact Hs.
Qed.

Lemma display_lists_ascending_witness :
  NoDup (keys (all_failed "Invalid API key")) /\
  StronglySorted StrOrder.lt
    (map fst (failed_models (all_failed "Invalid API key"))).
Proof.
  split; [exact default_models_NoDup|].
  apply (display_lists_ascending (all_failed "Invalid API key")).
  exact default_models_NoDup.
Defined.

(** X10. For a result set that is not empty, the banner agrees with the two
    lists: "valid" exactly when no model is listed as inaccessible,
    "failed" exactly when none is listed as accessible, and "partially
    valid" exactly when both lists have a line. *)
Theorem summary_agrees_with_lists :
  forall d : dict ProbeOutcome,
    d <> [] ->
    (page_summary d = Some FullyValid <-> failed_models d = []) /\
    (page_summary d = Some Failed <-> successful_models d = []) /\
    (page_summary d = Some PartiallyValid <->
       successful_models d <> [] /\ failed_models d <> []).
Proof.
  intros d Hne.
  pose proof (successful_models_length d) as Hs.
  pose proof (failed_models_length d) as Hf.
  assert (0 < count_total d) as Hpos
    by (unfold count_total; destruct d; [contradiction|simpl; lia]).
  assert (page_summary d =
          Some (final_summary (count_successes d) (count_total d))) as ->
    by (destruct d; [contradiction|reflexivity]).
  rewrite <- !length_zero_iff_nil. unfold final_summary.
  destruct (Nat.eqb_spec (count_successes d) (count_total d)) as [Heq|Hneq];
    [|destruct (Nat.ltb_spec 0 (count_successes d)) as [Hlt|Hge]];
    repeat split; intros; try discriminate; try lia;
    try (f_equal; lia); try reflexivity.
  all: exfalso; intuition lia.
Qed.

Lemma summary_agrees_with_lists_witness :
  all_failed "Invalid API key" <> [] /\
  page_summary (all_failed "Invalid API key") = Some Failed.
Proof.
  split; [discriminate|].
  apply (summary_agrees_with_lists (all_failed "Invalid API key"));
    [discriminate|reflexivity].
Defined.

Lemma probes_probe_events (l : list string) :
  probes (flat_map probe_events l) = l.
Proof.
  induction l as [|m l IH]; simpl; [reflexivity|]. now rewrite IH.
Qed.

Lemma sorted_items_of_ascending (d : dict ProbeOutcome) :
  StronglySorted StrOrder.lt (keys d) -> sorted_items d = d.
Proof.
  induction d as [|a d IH]; simpl; intros Hs; [reflexivity|].
  apply StronglySorted_inv in Hs as [Hs Ha].
  rewrite IH by exact Hs.
  destruct d as [|b d]; [reflexivity|]. simpl.
  apply Forall_inv in Ha. apply StrOrder.lt_iff in Ha as [Hle Hne].
  rewrite item_leb_by_model by exact Hne.
  unfold StrOrder.le in Hle. now rewrite Hle.
Qed.

(** Every run with a provider that raises errors only: it returns, no model
    has two entries, the default models have one, and the first thing done
    is the construction of the client with the credential. *)
Lemma test_api_key_cases {W : Type} (P : Provider W)
    (list_of_set : list string -> list string) (key : string) (s : State W) :
  set_iteration list_of_set ->
  raises_only_errors P ->
  exists rs s',
    test_api_key P list_of_set key s = (Return rs, s') /\
    NoDup (keys rs) /\
    (forall m, In m default_models -> In m (keys rs)) /\
    exists rest, trace s' = trace s ++ EvClientInit key :: rest.
Proof.
  intros Hset Herr.
  destruct (client_init P key (world s)) as [[client|e] w1] eqn:Hinit.
  - destruct (test_api_key_probing_loop W P list_of_set key s client w1
                Herr Hinit)
      as (available & w2 & s' & _ & Hloop & Hrun & Hkeys).
    specialize (Hkeys Hset).
    exists (results s'), s'. split; [exact Hrun|]. rewrite Hkeys.
    split; [apply StrOrder.sorted_NoDup, Hset|]. split.
    + intros m Hm. apply StrOrder.sorted_In.
      apply (Hset (default_models ++ available)), in_app_iff. now left.
    + apply probe_loop_trace in Hloop. rewrite Hloop. simpl.
      eexists. rewrite <- !app_assoc. reflexivity.
  - assert (isinstance e Exception = true) as He
      by (destruct Herr as (H & _); eapply H; exact Hinit).
    destruct (isinstance e AuthenticationError) eqn:Hauth.
    + rewrite (test_api_key_authentication_failure W P list_of_set key s e w1)
        by assumption.
      eexists _, _. split; [reflexivity|]. rewrite all_failed_keys.
      split; [exact default_models_NoDup|]. split; [auto|].
      exists []. reflexivity.
    + rewrite (test_api_key_client_failure W P list_of_set key s e w1)
        by assumption.
      eexists _, _. split; [reflexivity|]. rewrite all_failed_keys.
      split; [exact default_models_NoDup|]. split; [auto|].
      exists []. reflexivity.
Qed.

(** X11. On a run whose client construction succeeds, the page goes through
    the entries in the order in which the models were probed: sorting the
    items changes nothing, and each of the two lists is the result set
    filtered by the flag. *)
Theorem display_follows_probe_order :
  forall (W : Type) (P : Provider W) (list_of_set : list string -> list string)
         (key : string) (s : State W) (client : Client) (w1 : W),
    set_iteration list_of_set ->
    raises_only_errors P ->
    client_init P key (world s) = (Return client, w1) ->
    exists rs s',
      test_api_key P list_of_set key s = (Return rs, s') /\
      probes (trace s') = probes (trace s) ++ keys rs /\
      sorted_items rs = rs /\
      successful_models rs =
        map (fun kv : string * ProbeOutcome => (fst kv, snd (snd kv)))
          (filter (fun kv => fst (snd kv)) rs) /\
      failed_models rs =
        map (fun kv : string * ProbeOutcome => (fst kv, snd (snd kv)))
          (filter (fun kv => negb (fst (snd kv))) rs).
Proof.
  intros W P los key s client w1 Hset Herr Hinit.
  destruct (test_api_key_probing_loop W P los key s client w1 Herr Hinit)
    as (available & w2 & s' & _ & Hloop & Hrun & Hkeys).
  specialize (Hkeys Hset).
  assert (sorted_items (results s') = results s') as Hsame.
  { apply sorted_items_of_ascending. rewrite Hkeys.
    apply StrOrder.ascending_strict; [apply StrOrder.sorted_ascending|].
    apply StrOrder.sorted_NoDup, Hset. }
  exists (results s'), s'. split; [exact Hrun|]. split.
  - apply probe_loop_trace in Hloop.
    rewrite Hloop, Hkeys. cbn [trace].
    rewrite !probes_app, probes_probe_events. cbn [probes].
    now rewrite !app_nil_r.
  - rewrite successful_models_filter, failed_models_filter, Hsame. auto.
Qed.

Lemma display_follows_probe_order_witness :
  set_iteration Demo.demo_list_of_set /\
  raises_only_errors Demo.demo_provider /\
  client_init Demo.demo_provider "sk-valid123" (world (initial_state 0)) =
    (Return (mkClient "sk-valid123"), 1) /\
  exists rs s',
    test_api_key Demo.demo_provider Demo.demo_list_of_set "sk-valid123"
      (initial_state 0) = (Return rs, s') /\
    probes (trace s') = probes (trace (initial_state 0)) ++ keys rs /\
    sorted_items rs = rs /\
    successful_models rs =
      map (fun kv : string * ProbeOutcome => (fst kv, snd (snd kv)))
        (filter (fun kv => fst (snd kv)) rs) /\
    failed_models rs =
      map (fun kv : string * ProbeOutcome => (fst kv, snd (snd kv)))
        (filter (fun kv => negb (fst (snd kv))) rs).
Proof.
  split; [exact demo_set_iteration|].
  split; [exact demo_raises_only_errors|].
  split; [reflexivity|].
  apply (display_follows_probe_order nat Demo.demo_provider
           Demo.demo_list_of_set "sk-valid123" (initial_state 0)
           (mkClient "sk-valid123") 1).
  - exact demo_set_iteration.
  - exact demo_raises_only_errors.
  - reflexivity.
Defined.

(** X12. When client construction fails with an error, of whatever class,
    the page shows 0 successes out of 7, no accessible model, the 7 default
    models as inaccessible in ascending order, and the banner "failed". *)
Theorem construction_failure_page :
  forall (W : Type) (P : Provider W) (list_of_set : list string -> list string)
         (key : string) (s : State W) (e : PyExc) (w1 : W),
    client_init P key (world s) = (Raise e, w1) ->
    isinstance e Exception = true ->
    exists rs s',
      test_api_key P list_of_set key s = (Return rs, s') /\
      count_successes rs = 0 /\
      count_total rs = 7 /\
      successful_models rs = [] /\
      map fst (failed_models rs) = sorted default_models /\
      page_summary rs = Some Failed.
Proof.
  intros W P los key s e w1 Hinit Herr.
  destruct (isinstance e AuthenticationError) eqn:Hauth.
  - rewrite (test_api_key_authentication_failure W P los key s e w1)
      by assumption.
    eexists _, _. split; [reflexivity|]. repeat split.
  - rewrite (test_api_key_client_failure W P los key s e w1) by assumption.
    eexists _, _. split; [reflexivity|]. repeat split.
Qed.

Lemma construction_failure_page_witness :
  client_init Demo.demo_provider "unset" (world (initial_state 0)) =
    (Raise (mkExc OpenAIError "The api_key client option must be set"), 1) /\
  isinstance (mkExc OpenAIError "The api_key client option must be set")
    Exception = true /\
  exists rs s',
    test_api_key Demo.demo_provider Demo.demo_list_of_set "unset"
      (initial_state 0) = (Return rs, s') /\
    count_successes rs = 0 /\
    count_total rs = 7 /\
    successful_models rs = [] /\
    map fst (failed_models rs) = sorted default_models /\
    page_summary rs = Some Failed.
Proof.
  split; [reflexivity|]. split; [reflexivity|].
  apply (construction_failure_page nat Demo.demo_provider
           Demo.demo_list_of_set "unset" (initial_state 0)
           (mkExc OpenAIError "The api_key client option must be set") 1);
    reflexivity.
Defined.

(** X13. A click with an empty key, or with a key that does not start with
    "sk-", contacts nobody and keeps the results of the session: the state
    is untouched, the results are the ones before, and the notice is
    "Please enter an API key" for the empty key and the warning about the
    prefix otherwise. *)
Theorem button_rejects_bad_prefix :
  forall (W : Type) (P : Provider W) (list_of_set : list string -> list string)
         (api_key : string) (test_results : dict ProbeOutcome) (s : State W),
    startswith api_key "sk-" = false ->
    on_test_button P list_of_set api_key test_results s =
      (Return (Some (if String.eqb api_key EmptyString then PleaseEnterKey
                     else ShouldStartWithSk),
               test_results), s).
Proof.
  intros W P los api_key test_results s Hpre.
  unfold on_test_button. destruct api_key as [|c k]; [reflexivity|].
  now rewrite Hpre.
Qed.

Lemma button_rejects_bad_prefix_witness :
  startswith "badkey" "sk-" = false /\
  on_test_button Demo.demo_provider Demo.demo_list_of_set "badkey"
    [("gpt-4", (true, "Successfully connected"))] (initial_state 0) =
    (Return (Some ShouldStartWithSk,
             [("gpt-4", (true, "Successfully connected"))]),
     initial_state 0).
Proof.
  split; [reflexivity|].
  apply (button_rejects_bad_prefix nat Demo.demo_provider
           Demo.demo_list_of_set "badkey"
           [("gpt-4", (true, "Successfully connected"))] (initial_state 0)).
  reflexivity.
Defined.

(** X14. A click with a key that starts with "sk-" runs the test with that
    key and replaces the results of the session by what the run returns,
    whatever they were: the client is constructed with the key, no notice is
    shown, every default model has exactly one entry, and the page has a
    banner to show. *)
Theorem button_accepts_prefixed_key :
  forall (W : Type) (P : Provider W) (list_of_set : list string -> list string)
         (api_key : string) (test_results : dict ProbeOutcome) (s : State W),
    set_iteration list_of_set ->
    raises_only_errors P ->
    startswith api_key "sk-" = true ->
    exists rs s',
      test_api_key P list_of_set api_key s = (Return rs, s') /\
      on_test_button P list_of_set api_key test_results s =
        (Return (None, rs), s') /\
      (exists rest, trace s' = trace s ++ EvClientInit api_key :: rest) /\
      (forall m, In m default_models ->
         count_occ string_dec (keys rs) m = 1) /\
      page_summary rs <> None.
Proof.
  intros W P los api_key test_results s Hset Herr Hpre.
  destruct (test_api_key_cases P los api_key s Hset Herr)
    as (rs & s' & Hrun & Hnd & Hdef & Htrace).
  exists rs, s'. split; [exact Hrun|]. split; [|split; [exact Htrace|split]].
  - unfold on_test_button. destruct api_key as [|c k]; [discriminate Hpre|].
    now rewrite Hpre, Hrun.
  - intros m Hm. apply NoDup_count_occ'; auto.
  - destruct rs as [|kv rs]; [|discriminate].
    exfalso. apply (Hdef "gpt-4o"). now left.
Qed.

Lemma button_accepts_prefixed_key_witness :
  set_iteration Demo.demo_list_of_set /\
  raises_only_errors Demo.demo_provider /\
  startswith "sk-valid123" "sk-" = true /\
  exists rs s',
    test_api_key Demo.demo_provider Demo.demo_list_of_set "sk-valid123"
      (initial_state 0) = (Return rs, s') /\
    on_test_button Demo.demo_provider Demo.demo_list_of_set "sk-valid123"
      [("gpt-4", (true, "Successfully connected"))] (initial_state 0) =
      (Return (None, rs), s') /\
    (exists rest,
        trace s' = trace (initial_state 0) ++ EvClientInit "sk-valid123" :: rest) /\
    (forall m, In m default_models -> count_occ string_dec (keys rs) m = 1) /\
    page_summary rs <> None.
Proof.
  split; [exact demo_set_iteration|].
  split; [exact demo_raises_only_errors|].
  split; [reflexivity|].
  apply (button_accepts_prefixed_key nat Demo.demo_provider
           Demo.demo_list_of_set "sk-valid123"
           [("gpt-4", (true, "Successfully connected"))] (initial_state 0)).
  - exact demo_set_iteration.
  - exact demo_raises_only_errors.
  - reflexivity.
Defined.

(** X15. The messages tell where a failure happened: on a run whose client
    construction succeeds, no entry carries the message "Invalid API key"
    and none a message that starts with "Client error: ", the two messages
    of a failed construction. *)
Theorem probing_messages_differ_from_construction :
  forall (W : Type) (P : Provider W) (list_of_set : list string -> list string)
         (key : string) (s : State W) (client : Client) (w1 : W),
    raises_only_errors P ->
    client_init P key (world s) = (Return client, w1) ->
    exists rs s',
      test_api_key P list_of_set key s = (Return rs, s') /\
      forall m o, In (m, o) rs ->
        snd o <> "Invalid API key" /\
        startswith (snd o) "Client error: " = false.
Proof.
  intros W P los key s client w1 Herr Hinit.
  destruct (test_api_key_probing_loop W P los key s client w1 Herr Hinit)
    as (available & w2 & s' & _ & Hloop & Hrun & _).
  exists (results s'), s'. split; [exact Hrun|].
  assert (Forall (fun kv : string * ProbeOutcome =>
                    snd (snd kv) <> "Invalid API key" /\
                    startswith (snd (snd kv)) "Client error: " = false)
            (results s')) as Hall.
  { eapply probe_loop_entries; [|exact Hloop|constructor].
    intros m s0 o s1 Hprobe. simpl.
    rewrite test_single_model_run in Hprobe.
    destruct (chat_completions_create P client (probe_request m) (world s0))
      as [r w'].
    destruct (spec_category r) as [c|].
    - assert (o = spec_outcome c (detail r)) as -> by congruence.
      destruct c; simpl; split; (discriminate || reflexivity).
    - destruct r; [|discriminate Hprobe].
      assert (o = spec_outcome Completed EmptyString) as -> by congruence.
      simpl. split; (discriminate || reflexivity). }
  intros m o Hin. rewrite Forall_forall in Hall. apply (Hall (m, o) Hin).
Qed.

Lemma probing_messages_differ_from_construction_witness :
  raises_only_errors Demo.demo_provider /\
  client_init Demo.demo_provider "sk-valid123" (world (initial_state 0)) =
    (Return (mkClient "sk-valid123"), 1) /\
  exists rs s',
    test_api_key Demo.demo_provider Demo.demo_list_of_set "sk-valid123"
      (initial_state 0) = (Return rs, s') /\
    forall m o, In (m, o) rs ->
      snd o <> "Invalid API key" /\
      startswith (snd o) "Client error: " = false.
Proof.
  split; [exact demo_raises_only_errors|]. split; [reflexivity|].
  apply (probing_messages_differ_from_construction nat Demo.demo_provider
           Demo.demo_list_of_set "sk-valid123" (initial_state 0)
           (mkClient "sk-valid123") 1).
  - exact demo_raises_only_errors.
  - reflexivity.
Defined.
